(** * GottaGo debugger client: the session core of [gotools_debug.py]

    A shallow embedding of the three classes of [gotools_debug.py]:
    - [JSONClient], the synchronous JSON request/response transport;
    - [DebuggingSession], the breakpoint and execution operations built on it;
    - [GotoolsDebugCommand], the window command that launches, attaches to
      and stops debugger processes and keeps the session registry.

    Python objects are records, mutation is explicit state passing through a
    state-and-exception monad, and everything outside the module (the network,
    the operating system, the editor's settings store, the logger) is a
    field of the state: either an oracle that answers the calls the code
    makes, or a trace that records them. *)

From Stdlib Require Import ZArith Lia Ascii.
From stdpp Require Import base strings list gmap pretty.

Local Open Scope Z_scope.
Local Open Scope string_scope.

(** ** Python values *)

(** The values that cross the wire: what [json.loads] can return and what
    [json.dumps] accepts, restricted to integer numbers.  [PyDict] keeps the
    insertion order of the keys, as Python dictionaries do. *)
#[warnings="-register-all"]
Inductive value : Type :=
| PyNone
| PyBool (b : bool)
| PyInt (n : Z)
| PyStr (s : string)
| PyList (items : list value)
| PyDict (entries : list (string * value)).

(** A message built with [%] or [str.format]: the template of the source
    and the arguments it is applied to, kept unevaluated. *)
Inductive text : Type :=
| Fmt (template : string) (args : list value).

(** The exceptions of the model, named after their Python classes.  Each of
    them is a subclass of [Exception], so an [except Exception] clause
    catches them all.  The module raises [Exception] itself in two places,
    both in [JSONClient.call]: with a formatted message when the ids differ
    ([Exception_msg]) and with the server's error object ([Exception_obj]);
    the two constructors keep the two [raise] statements apart, where
    Python has one class for both and tells them apart by the argument
    only.  [OSError] stands for its subclasses, with the name of the one
    that is raised. *)
Inductive exn : Type :=
| Exception_msg (msg : text)        (* raise Exception("..." % (...)) *)
| Exception_obj (payload : value)   (* raise Exception(obj) *)
| ValueError                        (* json.loads on a malformed document *)
| UnicodeDecodeError                (* bytes.decode on non-text bytes *)
| AttributeError (attr : string)
| TypeError
| KeyError (key : string)
| OSError (what : string).

(** The Python class of an exception. *)
Definition class_of (e : exn) : string :=
  match e with
  | Exception_msg _ => "Exception"
  | Exception_obj _ => "Exception"
  | ValueError => "ValueError"
  | UnicodeDecodeError => "UnicodeDecodeError"
  | AttributeError _ => "AttributeError"
  | TypeError => "TypeError"
  | KeyError _ => "KeyError"
  | OSError what => what
  end.

Inductive Result (A : Type) : Type :=
| Return (a : A)
| Raise (e : exn).
Arguments Return {A} a.
Arguments Raise {A} e.

(** ** The state-and-exception monad

    A computation on a state [S] returns normally or raises, and in both
    cases leaves a state behind: what a Python method did to its object
    before raising stays done. *)
Definition M (S A : Type) : Type := S -> Result A * S.

Definition ret {S A} (a : A) : M S A := fun s => (Return a, s).
Definition raise {S A} (e : exn) : M S A := fun s => (Raise e, s).
Definition bind {S A B} (m : M S A) (k : A -> M S B) : M S B :=
  fun s => match m s with
           | (Return a, s') => k a s'
           | (Raise e, s') => (Raise e, s')
           end.
Definition gets {S A} (f : S -> A) : M S A := fun s => (Return (f s), s).
Definition modify {S} (f : S -> S) : M S unit := fun s => (Return tt, f s).
Definition lift {S A} (r : Result A) : M S A := fun s => (r, s).

(** [try: body except Exception as e: handler e] *)
Definition try_except {S A} (body : M S A) (handler : exn -> M S A) : M S A :=
  fun s => match body s with
           | (Return a, s') => (Return a, s')
           | (Raise e, s') => handler e s'
           end.

(** Running a computation on a component [get]/[set] of a larger state. *)
Definition zoom {S T A} (get : S -> T) (set : T -> S -> S) (m : M T A) : M S A :=
  fun s => let (r, t) := m (get s) in (r, set t s).

Declare Scope py_scope.
Delimit Scope py_scope with py.
Notation "x <- m ;; k" := (bind m (fun x => k))
  (at level 100, m at next level, right associativity) : py_scope.
Notation "m ;; k" := (bind m (fun _ => k))
  (at level 100, right associativity) : py_scope.
Local Open Scope py_scope.

(** ** Operations on values *)

Fixpoint assoc (k : string) (kvs : list (string * value)) : option value :=
  match kvs with
  | [] => None
  | (k', v) :: rest => if String.eqb k k' then Some v else assoc k rest
  end.

(** [d[k] = v] on a dictionary: an existing key keeps its place. *)
Fixpoint assoc_set (k : string) (v : value) (kvs : list (string * value))
  : list (string * value) :=
  match kvs with
  | [] => [(k, v)]
  | (k', v') :: rest =>
      if String.eqb k k' then (k, v) :: rest else (k', v') :: assoc_set k v rest
  end.

(** [obj.get(k)]: only dictionaries have the method; an absent key gives
    [None]. *)
Definition py_get (obj : value) (k : string) : Result value :=
  match obj with
  | PyDict kvs => Return (default PyNone (assoc k kvs))
  | _ => Raise (AttributeError "get")
  end.

(** [obj[k]] with a string key [k]. *)
Definition py_getitem (obj : value) (k : string) : Result value :=
  match obj with
  | PyDict kvs =>
      match assoc k kvs with
      | Some v => Return v
      | None => Raise (KeyError k)
      end
  | _ => Raise TypeError
  end.

(** [v == n] for an integer [n]: Python's booleans are the integers 0 and 1. *)
Definition py_eq_int (v : value) (n : Z) : bool :=
  match v with
  | PyInt m => Z.eqb m n
  | PyBool b => Z.eqb (if b then 1 else 0) n
  | _ => false
  end.

(** [v == s] for a string [s]. *)
Definition py_eq_str (v : value) (s : string) : bool :=
  match v with
  | PyStr s' => String.eqb s' s
  | _ => false
  end.

(** [v is None] *)
Definition is_None (v : value) : bool :=
  match v with PyNone => true | _ => false end.

(** Truth value of [v], as [if v:] and [not v] take it. *)
Definition py_truthy (v : value) : bool :=
  match v with
  | PyNone => false
  | PyBool b => b
  | PyInt n => negb (Z.eqb n 0)
  | PyStr s => negb (String.eqb s EmptyString)
  | PyList l => match l with [] => false | _ => true end
  | PyDict kvs => match kvs with [] => false | _ => true end
  end.

(** [for x in v]: the items a [for] loop visits. *)
Definition py_iter (v : value) : Result (list value) :=
  match v with
  | PyList l => Return l
  | PyDict kvs => Return (map (fun kv => PyStr (fst kv)) kvs)
  | PyStr s => Return (map (fun c => PyStr (String c EmptyString)) (String.list_ascii_of_string s))
  | _ => Raise TypeError
  end.

(** ** [json.loads]

    The decoder of Python's [json] module on the fragment the model has
    values for: [null], [true], [false], integers, strings with the
    two-character escapes and the [\uXXXX] of the code points below 256,
    arrays and objects.  A document outside the
    fragment or a malformed one is [None], which [json_loads] turns into
    the [ValueError] the module raises. *)
Module Json.

Definition is_ws (c : ascii) : bool :=
  (Ascii.eqb c " " || Ascii.eqb c "009" || Ascii.eqb c "010" || Ascii.eqb c "013")%char.

Fixpoint skip_ws (s : list ascii) : list ascii :=
  match s with
  | c :: r => if is_ws c then skip_ws r else s
  | [] => []
  end.

Definition digit (c : ascii) : option Z :=
  let n := Z.of_nat (nat_of_ascii c) in
  if ((48 <=? n) && (n <=? 57))%Z then Some (n - 48) else None.

Fixpoint digits (acc : Z) (s : list ascii) : Z * list ascii :=
  match s with
  | c :: r => match digit c with
              | Some d => digits (10 * acc + d) r
              | None => (acc, s)
              end
  | [] => (acc, [])
  end.

(** [0] or a run of digits that does not start with [0]. *)
Definition natural (s : list ascii) : option (Z * list ascii) :=
  match s with
  | c :: r => match digit c with
              | Some 0 => Some (0, r)
              | Some d => Some (digits d r)
              | None => None
              end
  | [] => None
  end.

Definition unescape (c : ascii) : option ascii :=
  (if Ascii.eqb c "034" then Some "034"
   else if Ascii.eqb c "\" then Some "\"
   else if Ascii.eqb c "/" then Some "/"
   else if Ascii.eqb c "b" then Some "008"
   else if Ascii.eqb c "f" then Some "012"
   else if Ascii.eqb c "n" then Some "010"
   else if Ascii.eqb c "r" then Some "013"
   else if Ascii.eqb c "t" then Some "009"
   else None)%char.

Definition hex_value (c : ascii) : option nat :=
  let n := nat_of_ascii c in
  if ((48 <=? n) && (n <=? 57))%nat then Some (n - 48)%nat
  else if ((97 <=? n) && (n <=? 102))%nat then Some (n - 87)%nat
  else if ((65 <=? n) && (n <=? 70))%nat then Some (n - 55)%nat
  else None.

(** The character of [\uXXXX], for the code points that a character of
    the model can hold, those below 256. *)
Definition code_point (h1 h2 h3 h4 : ascii) : option ascii :=
  match hex_value h1, hex_value h2, hex_value h3, hex_value h4 with
  | Some O, Some O, Some a, Some b => Some (ascii_of_nat (16 * a + b))
  | _, _, _, _ => None
  end.

(** The body of a string literal, after its opening quote. *)
Fixpoint chars (acc : list ascii) (s : list ascii) : option (string * list ascii) :=
  match s with
  | [] => None
  | c :: r =>
      if Ascii.eqb c "034"%char then Some (String.string_of_list_ascii (rev acc), r)
      else if Ascii.eqb c "\"%char then
        match r with
        | e :: r' =>
            if Ascii.eqb e "u"%char then
              match r' with
              | h1 :: h2 :: h3 :: h4 :: r'' =>
                  match code_point h1 h2 h3 h4 with
                  | Some c' => chars (c' :: acc) r''
                  | None => None
                  end
              | _ => None
              end
            else
              match unescape e with
              | Some c' => chars (c' :: acc) r'
              | None => None
              end
        | [] => None
        end
      else if (nat_of_ascii c <? 32)%nat then None
      else chars (c :: acc) r
  end.

Fixpoint literal (w : list ascii) (s : list ascii) : option (list ascii) :=
  match w, s with
  | [], _ => Some s
  | a :: w', c :: r => if Ascii.eqb a c then literal w' r else None
  | _ :: _, [] => None
  end.

Definition keyword (w : string) (v : value) (s : list ascii) : option (value * list ascii) :=
  match literal (String.list_ascii_of_string w) s with
  | Some r => Some (v, r)
  | None => None
  end.

(** One value at the head of [s] (no leading white space), the items of an
    array after its [[], the members of an object after its [{]. *)
Fixpoint element (fuel : nat) (s : list ascii) {struct fuel} : option (value * list ascii) :=
  match fuel with
  | O => None
  | S fuel =>
      match s with
      | [] => None
      | c :: r =>
          if Ascii.eqb c "{"%char then
            match skip_ws r with
            | c' :: r' =>
                if Ascii.eqb c' "}"%char then Some (PyDict [], r')
                else match members fuel [] (c' :: r') with
                     | Some (kvs, r'') => Some (PyDict kvs, r'')
                     | None => None
                     end
            | [] => None
            end
          else if Ascii.eqb c "["%char then
            match skip_ws r with
            | c' :: r' =>
                if Ascii.eqb c' "]"%char then Some (PyList [], r')
                else match elements fuel [] (c' :: r') with
                     | Some (vs, r'') => Some (PyList vs, r'')
                     | None => None
                     end
            | [] => None
            end
          else if Ascii.eqb c "034"%char then
            match chars [] r with
            | Some (str, r') => Some (PyStr str, r')
            | None => None
            end
          else if Ascii.eqb c "-"%char then
            match natural r with
            | Some (n, r') => Some (PyInt (- n), r')
            | None => None
            end
          else if Ascii.eqb c "t"%char then keyword "true" (PyBool true) s
          else if Ascii.eqb c "f"%char then keyword "false" (PyBool false) s
          else if Ascii.eqb c "n"%char then keyword "null" PyNone s
          else match natural s with
               | Some (n, r') => Some (PyInt n, r')
               | None => None
               end
      end
  end
with elements (fuel : nat) (acc : list value) (s : list ascii) {struct fuel}
  : option (list value * list ascii) :=
  match fuel with
  | O => None
  | S fuel =>
      match element fuel s with
      | Some (v, r) =>
          match skip_ws r with
          | c :: r' =>
              if Ascii.eqb c ","%char then elements fuel (acc ++ [v])%list (skip_ws r')
              else if Ascii.eqb c "]"%char then Some ((acc ++ [v])%list, r')
              else None
          | [] => None
          end
      | None => None
      end
  end
with members (fuel : nat) (acc : list (string * value)) (s : list ascii) {struct fuel}
  : option (list (string * value) * list ascii) :=
  match fuel with
  | O => None
  | S fuel =>
      match s with
      | c :: r =>
          if Ascii.eqb c "034"%char then
            match chars [] r with
            | Some (k, r1) =>
                match skip_ws r1 with
                | c1 :: r2 =>
                    if Ascii.eqb c1 ":"%char then
                      match element fuel (skip_ws r2) with
                      | Some (v, r3) =>
                          match skip_ws r3 with
                          | c3 :: r4 =>
                              if Ascii.eqb c3 ","%char
                              then members fuel (assoc_set k v acc) (skip_ws r4)
                              else if Ascii.eqb c3 "}"%char
                              then Some (assoc_set k v acc, r4)
                              else None
                          | [] => None
                          end
                      | None => None
                      end
                    else None
                | [] => None
                end
            | None => None
            end
          else None
      | [] => None
      end
  end.

(** A whole document: one value, white space allowed around it. *)
Definition document (s : string) : option value :=
  let cs := String.list_ascii_of_string s in
  match element (2 * length cs + 2) (skip_ws cs) with
  | Some (v, r) => match skip_ws r with [] => Some v | _ => None end
  | None => None
  end.

End Json.

(** [json.loads(s)] *)
Definition json_loads (s : string) : Result value :=
  match Json.document s with
  | Some v => Return v
  | None => Raise ValueError
  end.

(** [b.decode()]: the wire carries ASCII text; any other byte is outside
    the fragment of the model and reported as the decoding error. *)
Definition bytes_decode (b : string) : Result string :=
  if forallb (fun c => (nat_of_ascii c <? 128)%nat) (String.list_ascii_of_string b)
  then Return b else Raise UnicodeDecodeError.


(** ** [json.dumps]

    The encoder, with the module's default separators and its default
    [ensure_ascii]: in a string, every character outside the printable
    ASCII range is written as an escape. *)
Definition dquote : string := String "034"%char EmptyString.

Definition hex_digit (n : nat) : ascii :=
  ascii_of_nat (if (n <? 10)%nat then 48 + n else 87 + n).

Definition escape_char (c : ascii) : string :=
  let n := nat_of_ascii c in
  if (n =? 34)%nat then "\" ++ dquote
  else if (n =? 92)%nat then "\\"
  else if (n =? 10)%nat then "\n"
  else if (n =? 13)%nat then "\r"
  else if (n =? 9)%nat then "\t"
  else if (n =? 8)%nat then "\b"
  else if (n =? 12)%nat then "\f"
  else if ((n <? 32) || (126 <? n))%nat
       then "\u00" ++ String (hex_digit (n / 16)) (String (hex_digit (n mod 16)) EmptyString)
  else String c EmptyString.

Fixpoint escape (s : string) : string :=
  match s with
  | EmptyString => EmptyString
  | String c r => escape_char c ++ escape r
  end.

Definition json_string (s : string) : string := dquote ++ escape s ++ dquote.

Fixpoint join (sep : string) (parts : list string) : string :=
  match parts with
  | [] => EmptyString
  | [p] => p
  | p :: rest => p ++ sep ++ join sep rest
  end.

Fixpoint json_dumps (v : value) : string :=
  match v with
  | PyNone => "null"
  | PyBool true => "true"
  | PyBool false => "false"
  | PyInt n => pretty n
  | PyStr s => json_string s
  | PyList l => "[" ++ join ", " (map json_dumps l) ++ "]"
  | PyDict kvs =>
      "{" ++ join ", " (map (fun kv => json_string (fst kv) ++ ": " ++ json_dumps (snd kv)) kvs)
          ++ "}"
  end.

(** ** Sockets

    A connected TCP socket, seen from the client: what it has written, and
    what the peer's side delivers, in the order and in the pieces in which
    it becomes readable.  The end of [inbox] is the peer closing the
    connection.  [wrote_after_close] tells whether the last write was made
    after the peer had closed: the system takes the first such write and
    refuses the ones that follow it. *)
Inductive arrival : Type :=
| Data (bytes : string)     (* bytes that are readable together *)
| Reset.                    (* the connection is reset *)

Record sock : Type := Sock {
  fd : nat;
  peer : string * Z;
  sent : list string;
  inbox : list arrival;
  wrote_after_close : bool
}.

Fixpoint string_take (n : nat) (s : string) : string :=
  match n, s with
  | S n', String c r => String c (string_take n' r)
  | _, _ => EmptyString
  end.

Fixpoint string_drop (n : nat) (s : string) : string :=
  match n, s with
  | S n', String _ r => string_drop n' r
  | _, _ => s
  end.

(** Whether the system refuses a write on the socket: the peer has closed
    and a write has been made since. *)
Definition refuses (s : sock) : bool :=
  match inbox s with
  | [] => wrote_after_close s
  | _ :: _ => false
  end.

(** [sock.sendall(data)]: the bytes are handed to the system, which takes
    them all or, on a connection it knows to be broken, raises
    [BrokenPipeError] and writes nothing. *)
Definition sendall (data : string) : M sock unit :=
  fun s =>
    if refuses s then (Raise (OSError "BrokenPipeError"), s)
    else (Return tt,
          {| fd := fd s; peer := peer s;
             sent := (sent s ++ [data])%list; inbox := inbox s;
             wrote_after_close := match inbox s with [] => true | _ :: _ => false end |}).

(** [sock.recv(bufsize)]: at most [bufsize] of the bytes that are readable
    now; [b''] once the peer has closed. *)
Definition recv (bufsize : nat) : M sock string :=
  fun s =>
    let rest_is (l : list arrival) :=
      {| fd := fd s; peer := peer s; sent := sent s; inbox := l;
         wrote_after_close := wrote_after_close s |} in
    match inbox s with
    | [] => (Return EmptyString, s)
    | Data b :: rest =>
        (Return (string_take bufsize b),
         rest_is (match string_drop bufsize b with
                  | EmptyString => rest
                  | more => Data more :: rest
                  end))
    | Reset :: rest => (Raise (OSError "ConnectionResetError"), rest_is rest)
    end.

(** ** The objects of the module *)

(** [JSONClient]: [id_counter] is the number [next(self.id_counter)]
    returns next; [itertools.count()] starts it at 0. *)
Record JSONClient : Type := {
  socket : sock;
  id_counter : Z
}.

(** [DebuggingSession] *)
Record DebuggingSession : Type := {
  _rpc : option JSONClient;
  session_key : string;
  pid : Z;
  host : string;
  port : Z;
  addr : string
}.

(** One entry of the session registry, the dictionary that [launch] stores
    under its key. *)
Record SessionRecord : Type := {
  s_program : string;
  s_pid : Z;
  s_host : string;
  s_port : Z;
  s_addr : string;
  s_desc : string
}.

(** ** The world around the module *)

(** An argument of a log message. *)
Inductive logged : Type :=
| LStr (s : string)
| LInt (n : Z)
| LVal (v : value)
| LRecord (r : SessionRecord)
| LSessions (m : gmap string SessionRecord)
| LExn (e : exn).

(** What the module does to the world, in the order in which it does it. *)
Inductive event : Type :=
| EvLog (template : string) (args : list logged)    (* Logger.log *)
| EvConnect (fd : nat) (host : string) (port : Z)   (* socket.create_connection *)
| EvPortProbe (port : Z)                            (* bind to port 0, read the port, close *)
| EvSpawn (cmd : string) (args : list string) (pid : Z)
| EvKill (pid : Z)                                  (* os.kill(pid, signal.SIGKILL) *)
| EvWaitpid (pid : Z)                               (* os.waitpid(pid, os.WNOHANG) *)
| EvSettingsSet (sessions : gmap string SessionRecord).

(** The answers of the operating system and of the network.  Each takes
    the time of the question, so that the same question can be answered
    differently later. *)
Record Env : Type := {
  os_path_isfile : nat -> string -> bool;
  uuid4_hex : nat -> string;
  ephemeral_port : nat -> Z;
  run_nonblock : nat -> string -> list string -> Result Z;
  os_kill : nat -> Z -> Result unit;
  os_waitpid : nat -> Z -> Result unit;
  create_connection : nat -> string -> Z -> Result (list arrival)
}.

(** [sessions_setting] is the value of the window setting
    ["gotools.debugger.sessions"], [None] while it has never been set;
    [ActiveSession] is the class attribute of [GotoolsDebugCommand]. *)
Record World : Type := {
  env : Env;
  clock : nat;
  next_fd : nat;
  sessions_setting : option (gmap string SessionRecord);
  ActiveSession : option DebuggingSession;
  trace : list event
}.

Definition set_clock (n : nat) (w : World) : World :=
  {| env := env w; clock := n; next_fd := next_fd w;
     sessions_setting := sessions_setting w; ActiveSession := ActiveSession w;
     trace := trace w |}.
Definition set_next_fd (n : nat) (w : World) : World :=
  {| env := env w; clock := clock w; next_fd := n;
     sessions_setting := sessions_setting w; ActiveSession := ActiveSession w;
     trace := trace w |}.
Definition set_sessions_setting (m : option (gmap string SessionRecord)) (w : World) : World :=
  {| env := env w; clock := clock w; next_fd := next_fd w;
     sessions_setting := m; ActiveSession := ActiveSession w;
     trace := trace w |}.
Definition set_ActiveSession (a : option DebuggingSession) (w : World) : World :=
  {| env := env w; clock := clock w; next_fd := next_fd w;
     sessions_setting := sessions_setting w; ActiveSession := a;
     trace := trace w |}.
Definition set_trace (t : list event) (w : World) : World :=
  {| env := env w; clock := clock w; next_fd := next_fd w;
     sessions_setting := sessions_setting w; ActiveSession := ActiveSession w;
     trace := t |}.

(** Asking the environment: the question is put at the current time, and
    time moves on. *)
Definition ask {A} (q : Env -> nat -> A) : M World A :=
  fun w => (Return (q (env w) (clock w)), set_clock (S (clock w)) w).

Definition emit (e : event) : M World unit :=
  modify (fun w => set_trace (trace w ++ [e])%list w).

(** Modelled from the spec: [Logger.log], of [gotools_util], which is not
    among the sources: a single-argument formatted-message sink,
    fire-and-forget, with no return value. *)
Definition Logger_log (template : string) (args : list logged) : M World unit :=
  emit (EvLog template args).

(** ** [JSONClient] *)

(** [JSONClient.__init__(addr)]: connect, and start the counter at 0. *)
Definition JSONClient_init (host : string) (port : Z) : M World JSONClient :=
  answer <- ask (fun e t => create_connection e t host port) ;;
  script <- lift answer ;;
  n <- gets next_fd ;;
  modify (set_next_fd (S n)) ;;
  emit (EvConnect n host port) ;;
  ret {| socket := {| fd := n; peer := (host, port); sent := []; inbox := script;
                      wrote_after_close := false |};
         id_counter := 0 |}.

Definition on_socket {A} (m : M sock A) : M JSONClient A :=
  zoom socket (fun s self => {| socket := s; id_counter := id_counter self |}) m.

(** [next(self.id_counter)] *)
Definition next_id_counter : M JSONClient Z :=
  fun self => (Return (id_counter self),
               {| socket := socket self; id_counter := id_counter self + 1 |}).

(** [dict(id=id, params=list(params), method=name)] *)
Definition request_dict (id : Z) (name : string) (params : list value) : value :=
  PyDict [("id", PyInt id); ("params", PyList params); ("method", PyStr name)].

(** [JSONClient.call(name, *params)] *)
Definition call (name : string) (params : list value) : M JSONClient value :=
  id <- next_id_counter ;;
  let request := request_dict id name params in
  on_socket (sendall (json_dumps request)) ;;
  (* This must loop if resp is bigger than 4K *)
  response <- on_socket (recv 4096) ;;
  decoded <- lift (bytes_decode response) ;;
  response <- lift (json_loads decoded) ;;
  received <- lift (py_get response "id") ;;
  if negb (py_eq_int received id) then
    (err <- lift (py_get response "error") ;;
     raise (Exception_msg (Fmt "expected id=%s, received id=%s: %s"
                               [PyInt id; received; err])))
  else
    (err <- lift (py_get response "error") ;;
     if negb (is_None err) then raise (Exception_obj err)
     else lift (py_get response "result")).

(** ** [DebuggingSession] *)

(** [DebuggingSession.__init__(session_key, session)] *)
Definition DebuggingSession_init (key : string) (session : SessionRecord)
  : DebuggingSession :=
  {| _rpc := None;
     session_key := key;
     pid := s_pid session;
     host := s_host session;
     port := s_port session;
     addr := s_addr session |}.

Definition set_rpc (c : option JSONClient) (self : DebuggingSession) : DebuggingSession :=
  {| _rpc := c; session_key := session_key self; pid := pid self;
     host := host self; port := port self; addr := addr self |}.

(** The state of a method of a session: the object and the world. *)
Definition Session : Type := DebuggingSession * World.

Definition in_world {A} (m : M World A) : M Session A :=
  zoom snd (fun w s => (fst s, w)) m.

(** The property [DebuggingSession.rpc]: the transport of the session,
    made on the first access. *)
Definition rpc : M Session unit :=
  fun s =>
    match _rpc (fst s) with
    | Some _ => (Return tt, s)
    | None =>
        match JSONClient_init (host (fst s)) (port (fst s)) (snd s) with
        | (Return c, w) => (Return tt, (set_rpc (Some c) (fst s), w))
        | (Raise e, w) => (Raise e, (fst s, w))
        end
    end.

(** A method of the object that [self.rpc] returned, run on that object. *)
Definition on_rpc {A} (m : M JSONClient A) : M Session A :=
  fun s =>
    match _rpc (fst s) with
    | Some c => let (r, c') := m c in (r, (set_rpc (Some c') (fst s), snd s))
    | None => (Raise (AttributeError "call"), s)
    end.

(** [self.rpc.call(name, *params)] *)
Definition rpc_call (name : string) (params : list value) : M Session value :=
  rpc ;; on_rpc (call name params).

(** [DebuggingSession.get_breakpoints()] *)
Definition get_breakpoints : M Session value :=
  rpc_call "RPCServer.ListBreakpoints" [].

(** [DebuggingSession.add_breakpoint(filename, line)] *)
Definition add_breakpoint (filename : string) (line : Z) : M Session unit :=
  let breakpoint := PyDict [("file", PyStr filename); ("line", PyInt line)] in
  rpc_call "RPCServer.CreateBreakpoint" [breakpoint] ;;
  in_world (Logger_log "created breakpoint: {0}" [LVal breakpoint]) ;;
  bps <- get_breakpoints ;;
  in_world (Logger_log "current breakpoints: {0}" [LVal bps]).

(** The [for] loop of [clear_breakpoint]: the first [bp] of [bps] with
    [bp['file'] == filename and bp['line'] == line], or [None]. *)
Fixpoint scan_breakpoints (filename : string) (line : Z) (bps : list value)
  : Result value :=
  match bps with
  | [] => Return PyNone
  | bp :: rest =>
      match py_getitem bp "file" with
      | Raise e => Raise e
      | Return f =>
          if py_eq_str f filename then
            match py_getitem bp "line" with
            | Raise e => Raise e
            | Return l =>
                if py_eq_int l line then Return bp
                else scan_breakpoints filename line rest
            end
          else scan_breakpoints filename line rest
      end
  end.

(** [DebuggingSession.clear_breakpoint(filename, line)].  When the loop has
    found an entry, it has left it through [break], and [bp] is [found]. *)
Definition clear_breakpoint (filename : string) (line : Z) : M Session unit :=
  bps <- get_breakpoints ;;
  items <- lift (py_iter bps) ;;
  found <- lift (scan_breakpoints filename line items) ;;
  if negb (py_truthy found) then
    in_world (Logger_log "no breakpoint found at {0}:{1}" [LStr filename; LInt line])
  else
    (rpc ;;
     id <- lift (py_getitem found "id") ;;
     on_rpc (call "RPCServer.ClearBreakpoint" [id]) ;;
     in_world (Logger_log "cleared breakpoint '{0}' at {1}:{2}"
                          [LVal id; LStr filename; LInt line]) ;;
     bps <- get_breakpoints ;;
     in_world (Logger_log "current breakpoints: {0}" [LVal bps])).

(** [DebuggingSession.cont()] *)
Definition cont : M Session unit :=
  let command := PyDict [("name", PyStr "continue")] in
  state <- rpc_call "RPCServer.Command" [command] ;;
  in_world (Logger_log "breakpoint reached; state: {0}" [LVal state]).

(** ** [GotoolsDebugCommand] *)

(** The session registry.
    [self.window.settings().get("gotools.debugger.sessions", {})] gives a
    copy of the stored dictionary, the empty one while nothing is stored;
    only [set] changes what is stored. *)
Definition registry (w : World) : gmap string SessionRecord :=
  default ∅ (sessions_setting w).

Definition settings_get_sessions : M World (gmap string SessionRecord) :=
  gets registry.

Definition settings_set_sessions (sessions : gmap string SessionRecord) : M World unit :=
  modify (set_sessions_setting (Some sessions)) ;;
  emit (EvSettingsSet sessions).

(** Modelled from the spec: [ToolRunner.run_nonblock], of [gotools_util],
    which is not among the sources: spawns the command as a detached child
    process, not through a shell, and returns at once with the process,
    of which the caller reads [pid]. *)
Definition ToolRunner_run_nonblock (cmd : string) (args : list string) : M World Z :=
  answer <- ask (fun e t => run_nonblock e t cmd args) ;;
  child <- lift answer ;;
  emit (EvSpawn cmd args child) ;;
  ret child.

(** [uuid.uuid4().hex[0:10]] *)
Definition fresh_key : M World string :=
  hex <- ask uuid4_hex ;;
  ret (string_take 10 hex).

(** [not key], for [key] a string or [None] *)
Definition key_missing (key : option string) : bool :=
  match key with
  | None => true
  | Some k => String.eqb k EmptyString
  end.

(** [GotoolsDebugCommand.attach(session_key)] *)
Definition attach (session_key : string) : M World unit :=
  sessions <- settings_get_sessions ;;
  match sessions !! session_key with
  | None => Logger_log "no session '{0}' found" [LStr session_key]
  | Some session =>
      modify (set_ActiveSession (Some (DebuggingSession_init session_key session))) ;;
      Logger_log "debugger attached to session: {0}" [LRecord session]
  end.

(** [GotoolsDebugCommand.launch(program, key=None, desc="Default")] *)
Definition launch (program : string) (key : option string) (desc : string) : M World unit :=
  is_file <- ask (fun e t => os_path_isfile e t program) ;;
  if negb is_file then
    Logger_log "build completed but {0} doesn't exist" [LStr program]
  else
    (key <- (if key_missing key then fresh_key else ret (default EmptyString key)) ;;
     port <- ask ephemeral_port ;;
     emit (EvPortProbe port) ;;
     let host := "localhost" in
     let addr := host ++ ":" ++ pretty port in
     proc_pid <- ToolRunner_run_nonblock
                   "dlv" ["--headless=true"; "--listen=" ++ addr; "exec"; program] ;;
     sessions <- settings_get_sessions ;;
     let sessions :=
       <[key := {| s_program := program; s_pid := proc_pid; s_host := host;
                   s_port := port; s_addr := addr; s_desc := desc |}]> sessions in
     settings_set_sessions sessions ;;
     Logger_log "created new debugger session. current sessions: {0}" [LSessions sessions] ;;
     attach key).

(** [GotoolsDebugCommand.stop(session_key)] *)
Definition stop (session_key : string) : M World unit :=
  sessions <- settings_get_sessions ;;
  match sessions !! session_key with
  | None => Logger_log "no session '{0}' found" [LStr session_key]
  | Some session =>
      Logger_log "stopping session: {0}" [LRecord session] ;;
      let pid := s_pid session in
      let sessions := delete session_key sessions in
      settings_set_sessions sessions ;;
      try_except
        (emit (EvKill pid) ;;
         killed <- ask (fun e t => os_kill e t pid) ;;
         lift killed ;;
         emit (EvWaitpid pid) ;;
         reaped <- ask (fun e t => os_waitpid e t pid) ;;
         lift reaped ;;
         Logger_log "killed pid {0} for debugging session {1}" [LInt pid; LStr session_key])
        (fun e =>
           Logger_log "warning: couldn't kill pid {0} debugging session pid {1}: {2}"
                      [LInt pid; LStr session_key; LExn e]) ;;
      Logger_log "deleted session {0}" [LStr session_key]
  end.

(** [GotoolsDebugCommand.stop_active_session()] *)
Definition stop_active_session : M World unit :=
  active <- gets ActiveSession ;;
  match active with
  | None => Logger_log "no debugging session is active" []
  | Some session =>
      try_except
        (stop (session_key session) ;;
         modify (set_ActiveSession None))
        (fun e => Logger_log "couldn't stop active session: {0}" [LExn e])
  end.

(** ** The commands of the window

    The methods of [GotoolsDebugCommand] that the editor calls.  What they
    take from the editor's side comes in an [Editor]: the answers of
    [Buffers] and [GoBuffers] of [gotools_util], which is not among the
    sources, about the active view, and the home directory. *)
Record Editor : Type := {
  is_go_source : bool;              (* GoBuffers.is_go_source(view) *)
  func_name_at_cursor : string;     (* GoBuffers.func_name_at_cursor(view) *)
  location_at_cursor : string * Z;  (* filename and row of Buffers.location_at_cursor(view) *)
  expanduser_home : string          (* os.path.expanduser('~') *)
}.

(** A method of [GotoolsDebugCommand.ActiveSession], called on that
    object: [None] has no methods, and what the method does to the object
    it does to the active session. *)
Definition on_ActiveSession {A} (method : string) (m : M Session A) : M World A :=
  fun w =>
    match ActiveSession w with
    | None => (Raise (AttributeError method), w)
    | Some self =>
        let (r, s) := m (self, w) in
        (r, set_ActiveSession (Some (fst s)) (snd s))
    end.

(** The closure that [debug_test_at_cursor] stores in
    [GotoolsBuildCommand.Callbacks]:
    [lambda: self.launch(program=program, key=session_key, desc=func_name)],
    as the three values it has captured. *)
Record Callback : Type := {
  cb_program : string;
  cb_key : string;
  cb_desc : string
}.

(** Calling the closure. *)
Definition invoke (cb : Callback) : M World unit :=
  launch (cb_program cb) (Some (cb_key cb)) (cb_desc cb).

(** A command handed to [self.window.run_command], with its arguments. *)
Inductive window_command : Type :=
| RunCommand (name : string) (args : list (string * string)).

(** The state of the plugin: the world, the table
    [GotoolsBuildCommand.Callbacks] and the commands handed to the window. *)
Record Plugin : Type := {
  world : World;
  Callbacks : gmap string Callback;
  window_commands : list window_command
}.

Definition in_plugin {A} (m : M World A) : M Plugin A :=
  zoom world
       (fun w p => {| world := w; Callbacks := Callbacks p;
                      window_commands := window_commands p |})
       m.

(** [os.path.join(a, b)] of [posixpath], for two components. *)
Definition os_path_join (a b : string) : string :=
  match b with
  | String "/" _ => b
  | _ =>
      match String.list_ascii_of_string a with
      | [] => b
      | cs => if Ascii.eqb (List.last cs "/"%char) "/"%char then a ++ b else a ++ "/" ++ b
      end
  end.

Module Command.

(** [GotoolsDebugCommand.add_breakpoint()] *)
Definition add_breakpoint (ed : Editor) : M World unit :=
  let (filename, row) := location_at_cursor ed in
  on_ActiveSession "add_breakpoint" (add_breakpoint filename row).

(** [GotoolsDebugCommand.clear_breakpoint()] *)
Definition clear_breakpoint (ed : Editor) : M World unit :=
  let (filename, row) := location_at_cursor ed in
  on_ActiveSession "clear_breakpoint" (clear_breakpoint filename row).

(** [GotoolsDebugCommand.cont()] *)
Definition cont : M World unit :=
  on_ActiveSession "cont" cont.

(** [GotoolsDebugCommand.debug_test_at_cursor()] *)
Definition debug_test_at_cursor (ed : Editor) : M Plugin unit :=
  if negb (is_go_source ed) then ret tt
  else
    let func_name := func_name_at_cursor ed in
    if (String.length func_name =? 0)%nat then
      in_plugin (Logger_log "no function found near cursor" [])
    else
      (session_key <- in_plugin fresh_key ;;
       let program :=
         os_path_join (expanduser_home ed) (".gotools-debug-" ++ session_key) in
       modify (fun p =>
                 {| world := world p;
                    Callbacks := <[session_key :=
                                     {| cb_program := program; cb_key := session_key;
                                        cb_desc := func_name |}]> (Callbacks p);
                    window_commands := window_commands p |}) ;;
       in_plugin (Logger_log "building {0} for debugging session {1}"
                             [LStr program; LStr session_key]) ;;
       modify (fun p =>
                 {| world := world p;
                    Callbacks := Callbacks p;
                    window_commands :=
                      (window_commands p
                       ++ [RunCommand "gotools_build"
                             [("task", "test_at_cursor");
                              ("build_test_binary", program);
                              ("build_id", session_key)]])%list |})).

(** [GotoolsDebugCommand.run(command=None, args={})]; the arguments are a
    dictionary of strings. *)
Definition run (ed : Editor) (command : option string) (args : gmap string string)
  : M Plugin unit :=
  if key_missing command then in_plugin (Logger_log "command is required" [])
  else
    let command := default EmptyString command in
    if String.eqb command "add_breakpoint" then in_plugin (add_breakpoint ed)
    else if String.eqb command "clear_breakpoint" then in_plugin (clear_breakpoint ed)
    else if String.eqb command "continue" then in_plugin cont
    else if String.eqb command "stop" then
      match args !! "session" with
      | None => raise (KeyError "session")
      | Some session => in_plugin (stop session)
      end
    else if String.eqb command "stop_active_session" then in_plugin stop_active_session
    else if String.eqb command "debug_test_at_cursor" then debug_test_at_cursor ed
    else in_plugin (Logger_log "unrecognized command: {0}" [LStr command]).

End Command.

(** ** Fixtures

    A small world for the examples: the files of [files] exist, every
    connection is accepted and served [script], child processes get the
    process id 4242, and signalling a process works when [kill_ok]. *)
Definition fixture_env (files : list string) (script : list arrival) (kill_ok : bool) : Env :=
  {| os_path_isfile := fun _ p => existsb (String.eqb p) files;
     uuid4_hex := fun _ => "0123456789abcdef0123456789abcdef";
     ephemeral_port := fun t => 52000 + Z.of_nat t;
     run_nonblock := fun _ _ _ => Return 4242;
     os_kill := fun _ _ =>
       if kill_ok then Return tt else Raise (OSError "ProcessLookupError");
     os_waitpid := fun _ _ => Return tt;
     create_connection := fun _ _ _ => Return script |}.

Definition fixture_world (files : list string) (script : list arrival) (kill_ok : bool) : World :=
  {| env := fixture_env files script kill_ok;
     clock := 0;
     next_fd := 0;
     sessions_setting := None;
     ActiveSession := None;
     trace := [] |}.

(** A transport that has made no call yet, with [script] to come. *)
Definition fixture_client (script : list arrival) : JSONClient :=
  {| socket := {| fd := 0; peer := ("localhost", 52000); sent := []; inbox := script;
                  wrote_after_close := false |};
     id_counter := 0 |}.

(** [{"id": id, "result": result, "error": error}] *)
Definition response_dict (id : Z) (result error : value) : value :=
  PyDict [("id", PyInt id); ("result", result); ("error", error)].

Definition fixture_breakpoint (id : Z) (file : string) (line : Z) : value :=
  PyDict [("id", PyInt id); ("file", PyStr file); ("line", PyInt line)].

Definition fixture_record : SessionRecord :=
  {| s_program := "/tmp/prog"; s_pid := 4242; s_host := "localhost";
     s_port := 52000; s_addr := "localhost:52000"; s_desc := "TestFoo" |}.

(** * Observations

    What the properties are stated with: the views of a transport, of a
    session and of the trace that the statements read, the harnesses that
    run several calls or operations in a row, and the data of the
    examples. *)

Arguments json_dumps : simpl never.
Arguments json_loads : simpl never.
Arguments bytes_decode : simpl never.
Arguments string_take : simpl never.
Arguments string_drop : simpl never.

(** The response as [call] gets it: once the request is written, the
    bytes of its one [recv], decoded and parsed. *)
Definition decoded_response (c : JSONClient) : Result value :=
  if refuses (socket c) then Raise (OSError "BrokenPipeError")
  else
    match fst (recv 4096 (socket c)) with
    | Return b =>
        match bytes_decode b with
        | Return decoded => json_loads decoded
        | Raise e => Raise e
        end
    | Raise e => Raise e
    end.

(** What is left to read on the socket after that [recv]. *)
Definition unread (c : JSONClient) : list arrival :=
  inbox (snd (recv 4096 (socket c))).

(** The transport after a call: the request is written unless the write
    is refused, one [recv] is taken from the stream and the counter has
    moved, whatever the outcome of the call. *)
Definition after_call (name : string) (params : list value) (c : JSONClient) : JSONClient :=
  {| socket := {| fd := fd (socket c);
                  peer := peer (socket c);
                  sent := if refuses (socket c) then sent (socket c)
                          else (sent (socket c)
                                ++ [json_dumps (request_dict (id_counter c) name params)])%list;
                  inbox := unread c;
                  wrote_after_close :=
                    match inbox (socket c) with [] => true | _ :: _ => false end |};
     id_counter := id_counter c + 1 |}.

(** The outcome of a call as a function of the decoded response. *)
Definition outcome (id : Z) (response : Result value) : Result value :=
  match response with
  | Raise e => Raise e
  | Return (PyDict kvs) =>
      let received := default PyNone (assoc "id" kvs) in
      let err := default PyNone (assoc "error" kvs) in
      if py_eq_int received id then
        if is_None err then Return (default PyNone (assoc "result" kvs))
        else Raise (Exception_obj err)
      else Raise (Exception_msg (Fmt "expected id=%s, received id=%s: %s"
                                     [PyInt id; received; err]))
  | Return _ => Raise (AttributeError "get")
  end.

(** A listing of two breakpoints, as the debugger answers the first call
    of a transport, and one of a hundred and twenty. *)
Definition listing : value :=
  response_dict 0 (PyList [fixture_breakpoint 1 "/tmp/a.go" 10;
                           fixture_breakpoint 2 "/tmp/a.go" 12]) PyNone.

Definition long_listing : value :=
  response_dict 0
    (PyList (map (fun i => fixture_breakpoint (Z.of_nat i) "/tmp/a.go" (Z.of_nat i))
                 (seq 1 120)))
    PyNone.

(** A sequence of calls on one transport; a call that raises does not keep
    the caller from making the next one. *)
Fixpoint calls (cs : list (string * list value)) (c : JSONClient)
  : list (Result value) * JSONClient :=
  match cs with
  | [] => ([], c)
  | (name, params) :: rest =>
      let (r, c1) := call name params c in
      let (rs, c2) := calls rest c1 in
      (r :: rs, c2)
  end.

(** The requests of the calls [cs] as they go over the wire when the
    first of them has the id [id]: for each call the encoding of the
    dictionary of its id, its parameters and its method, the ids running
    on by one. *)
Fixpoint requests_from (id : Z) (cs : list (string * list value)) : list string :=
  match cs with
  | [] => []
  | (name, params) :: rest =>
      json_dumps (PyDict [("id", PyInt id); ("params", PyList params); ("method", PyStr name)])
      :: requests_from (id + 1) rest
  end.

(** The events of a [stop] of the session [k] with record [r], after the
    registry has been written: the signal, then the reaping if the signal
    went through, and the log entries; [t] is the time of the signal. *)
Definition teardown_events (e : Env) (t : nat) (k : string) (r : SessionRecord)
  : list event :=
  let warning x :=
    EvLog "warning: couldn't kill pid {0} debugging session pid {1}: {2}"
          [LInt (s_pid r); LStr k; LExn x] in
  let deleted := EvLog "deleted session {0}" [LStr k] in
  EvKill (s_pid r) ::
  match os_kill e t (s_pid r) with
  | Raise x => [warning x; deleted]
  | Return _ =>
      EvWaitpid (s_pid r) ::
      match os_waitpid e (S t) (s_pid r) with
      | Raise x => [warning x; deleted]
      | Return _ =>
          [EvLog "killed pid {0} for debugging session {1}" [LInt (s_pid r); LStr k];
           deleted]
      end
  end.

Definition is_settings_set (ev : event) : bool :=
  match ev with EvSettingsSet _ => true | _ => false end.

Definition is_kill (ev : event) : bool :=
  match ev with EvKill _ | EvWaitpid _ => true | _ => false end.

(** What the transport of a session has written, and the id its next
    request gets; a session without a transport has written nothing, and
    the transport it will make starts at 0. *)
Definition transport_sent (s : Session) : list string :=
  match _rpc (fst s) with
  | Some c => sent (socket c)
  | None => []
  end.

Definition next_request_id (s : Session) : Z :=
  match _rpc (fst s) with
  | Some c => id_counter c
  | None => 0
  end.

(** A breakpoint as the debugger lists it: a dictionary with an id, a file
    and a line. *)
Definition is_breakpoint (bp : value) : bool :=
  match py_getitem bp "id", py_getitem bp "file", py_getitem bp "line" with
  | Return _, Return _, Return _ => true
  | _, _, _ => false
  end.

(** [bp['file'] == filename and bp['line'] == line] *)
Definition at_location (filename : string) (line : Z) (bp : value) : bool :=
  match py_getitem bp "file", py_getitem bp "line" with
  | Return f, Return l => py_eq_str f filename && py_eq_int l line
  | _, _ => false
  end.

(** The operations of a session. *)
Inductive operation : Type :=
| AddBreakpoint (filename : string) (line : Z)
| GetBreakpoints
| ClearBreakpoint (filename : string) (line : Z)
| Cont.

Definition perform (op : operation) : M Session unit :=
  match op with
  | AddBreakpoint filename line => add_breakpoint filename line
  | GetBreakpoints => (get_breakpoints ;; ret tt)
  | ClearBreakpoint filename line => clear_breakpoint filename line
  | Cont => cont
  end.

(** A sequence of operations on one session object; an operation that
    raises does not keep the caller from the next one. *)
Fixpoint perform_all (ops : list operation) (s : Session) : Session :=
  match ops with
  | [] => s
  | op :: rest => perform_all rest (snd (perform op s))
  end.

(** Which connection the transport of the session is, if it has one, and
    how many connections have been made in the world. *)
Definition transport_fd (s : Session) : option nat :=
  match _rpc (fst s) with
  | Some c => Some (fd (socket c))
  | None => None
  end.

Definition connections (s : Session) : nat := next_fd (snd s).

(** From [s] to [s'] the session has kept its transport: the one it had,
    with no connection made; or, if it had none, still none, or the one
    connection that has been made since. *)
Definition keeps_transport (s s' : Session) : Prop :=
  match transport_fd s with
  | Some n => transport_fd s' = Some n /\ connections s' = connections s
  | None =>
      (transport_fd s' = None /\ connections s' = connections s)
      \/ (transport_fd s' = Some (connections s) /\ connections s' = S (connections s))
  end.

Definition preserves {A} (m : M Session A) : Prop :=
  forall s, keeps_transport s (snd (m s)).

(** The debugger's side of a session of five calls: two listings, the
    clearing, the listing after it, and the continue. *)
Definition session_script : list arrival :=
  [Data (json_dumps listing);
   Data (json_dumps (response_dict 1 (PyList [fixture_breakpoint 1 "/tmp/a.go" 10;
                                              fixture_breakpoint 2 "/tmp/a.go" 12]) PyNone));
   Data (json_dumps (response_dict 2 PyNone PyNone));
   Data (json_dumps (response_dict 3 (PyList [fixture_breakpoint 1 "/tmp/a.go" 10]) PyNone));
   Data (json_dumps (response_dict 4 (PyDict [("exited", PyBool true)]) PyNone))].

(** The call that an operation makes first. *)
Definition first_call (op : operation) : string * list value :=
  match op with
  | AddBreakpoint filename line =>
      ("RPCServer.CreateBreakpoint", [PyDict [("file", PyStr filename); ("line", PyInt line)]])
  | GetBreakpoints => ("RPCServer.ListBreakpoints", [])
  | ClearBreakpoint _ _ => ("RPCServer.ListBreakpoints", [])
  | Cont => ("RPCServer.Command", [PyDict [("name", PyStr "continue")]])
  end.

(** The key under which a launch registers its session, the time at which
    it probes for a port, the arguments it passes to the debugger and the
    record it stores for the child [child]. *)
Definition launch_key (key : option string) (w : World) : string :=
  if key_missing key then string_take 10 (uuid4_hex (env w) (S (clock w)))
  else default EmptyString key.

Definition launch_port_time (key : option string) (w : World) : nat :=
  if key_missing key then S (S (clock w)) else S (clock w).

Definition launch_args (program : string) (key : option string) (w : World) : list string :=
  ["--headless=true";
   "--listen=" ++ ("localhost" ++ ":" ++ pretty (ephemeral_port (env w) (launch_port_time key w)));
   "exec"; program].

Definition launch_record (program : string) (key : option string) (desc : string)
  (w : World) (child : Z) : SessionRecord :=
  let port := ephemeral_port (env w) (launch_port_time key w) in
  {| s_program := program; s_pid := child; s_host := "localhost"; s_port := port;
     s_addr := "localhost" ++ ":" ++ pretty port; s_desc := desc |}.

(** The commands that [run] knows. *)
Definition known_commands : list string :=
  ["add_breakpoint"; "clear_breakpoint"; "continue"; "stop"; "stop_active_session";
   "debug_test_at_cursor"].

(** * Properties *)

Example json_loads_dumps :
  let v := PyDict [("id", PyInt 0);
                   ("result", PyList [PyInt (-12); PyDict [("a", PyBool true)];
                                      PyStr (String "x" (String "010" (String "y" EmptyString)))]);
                   ("error", PyNone)] in
  json_loads (json_dumps v) = Return v.
Proof. vm_compute. reflexivity. Qed.

(** Characters outside the printable ASCII range go out as escapes and
    come back as they were. *)
Example json_loads_dumps_escapes :
  let v := PyStr (String "127" (String "233" (String "009" (String "a" EmptyString)))) in
  json_dumps v = dquote ++ "\u007f\u00e9\ta" ++ dquote
  /\ json_loads (json_dumps v) = Return v.
Proof. cbv zeta. split; vm_compute; reflexivity. Qed.

(** ** The transport *)

Lemma is_None_spec v : is_None v = true <-> v = PyNone.
Proof. destruct v; simpl; split; congruence. Qed.

Lemma is_None_false v : is_None v = false <-> v <> PyNone.
Proof. destruct v; simpl; split; congruence. Qed.

Lemma call_eq name params c :
  call name params c = (outcome (id_counter c) (decoded_response c), after_call name params c).
Proof.
  destruct c as [[n p out inb flag] id].
  unfold call, decoded_response, after_call, unread, outcome, bind, on_socket, zoom,
    next_id_counter, sendall, refuses, modify, lift, raise, recv.
  destruct inb as [|[b|] rest];
    cbv beta iota zeta delta [socket id_counter fd peer sent inbox wrote_after_close fst snd].
  - destruct flag;
      cbv beta iota zeta delta [socket id_counter fd peer sent inbox wrote_after_close fst snd];
      [reflexivity|].
    unfold bytes_decode; cbn [String.list_ascii_of_string forallb].
    change (json_loads EmptyString) with (@Raise value ValueError). reflexivity.
  - destruct (bytes_decode (string_take 4096 b)) as [decoded|e]; [|reflexivity].
    destruct (json_loads decoded) as [[| | | | |kvs]|e]; try reflexivity.
    cbn [py_get].
    destruct (py_eq_int (default PyNone (assoc "id" kvs)) id); cbn [negb]; [|reflexivity].
    destruct (is_None (default PyNone (assoc "error" kvs))); reflexivity.
  - reflexivity.
Qed.

Lemma call_result name params c :
  fst (call name params c) = outcome (id_counter c) (decoded_response c).
Proof. now rewrite call_eq. Qed.

Lemma call_state name params c :
  snd (call name params c) = after_call name params c.
Proof. now rewrite call_eq. Qed.

(** X1: a call returns a value only from a response that is a dictionary
    with the id of the request and no error, and the value is its result. *)
Lemma call_returns_only_matching name params c v :
  fst (call name params c) = Return v ->
  exists kvs,
    decoded_response c = Return (PyDict kvs)
    /\ py_eq_int (default PyNone (assoc "id" kvs)) (id_counter c) = true
    /\ default PyNone (assoc "error" kvs) = PyNone
    /\ v = default PyNone (assoc "result" kvs).
Proof.
  rewrite call_result. unfold outcome.
  destruct (decoded_response c) as [[| | | | |kvs]|e] eqn:Hresp; try discriminate.
  cbv zeta.
  destruct (py_eq_int (default PyNone (assoc "id" kvs)) (id_counter c)) eqn:Hid;
    [|discriminate].
  destruct (is_None (default PyNone (assoc "error" kvs))) eqn:Hn; [|discriminate].
  intros [= <-]. exists kvs. apply is_None_spec in Hn. repeat split; auto.
Qed.

(** The exceptions that reading and decoding a response can raise. *)
Lemma decoded_response_raises c e :
  decoded_response c = Raise e ->
  e = ValueError \/ e = UnicodeDecodeError \/ exists what, e = OSError what.
Proof.
  unfold decoded_response.
  destruct (refuses (socket c)); [intros [= <-]; eauto|].
  unfold recv.
  destruct (inbox (socket c)) as [|[b|] rest]; cbn [fst].
  - unfold bytes_decode, json_loads.
    destruct (forallb _ _); [|intros [= <-]; auto].
    destruct (Json.document _); [discriminate|intros [= <-]; auto].
  - unfold bytes_decode, json_loads.
    destruct (forallb _ _); [|intros [= <-]; auto].
    destruct (Json.document _); [discriminate|intros [= <-]; auto].
  - intros [= <-]. eauto.
Qed.

(** C1, on the code: [call] takes one [recv] and parses what it returned.
    A well-formed response that arrives in two pieces, or one that is
    longer than the 4096 bytes of the buffer, is not accumulated: the call
    raises the decoder's [ValueError] on the first piece and leaves the
    rest of the response unread on the socket.  (The source notes, above
    the [recv], that the read must loop for a larger response.) *)
Theorem call_takes_a_single_recv :
  (let whole := json_dumps listing in
   let c := fixture_client [Data (string_take 20 whole); Data (string_drop 20 whole)] in
   string_take 20 whole ++ string_drop 20 whole = whole
   /\ json_loads whole = Return listing
   /\ fst (call "RPCServer.ListBreakpoints" [] c) = Raise ValueError
   /\ inbox (socket (snd (call "RPCServer.ListBreakpoints" [] c)))
      = [Data (string_drop 20 whole)])
  /\
  (let whole := json_dumps long_listing in
   let c := fixture_client [Data whole] in
   (4096 <? String.length whole)%nat = true
   /\ json_loads whole = Return long_listing
   /\ fst (call "RPCServer.ListBreakpoints" [] c) = Raise ValueError
   /\ inbox (socket (snd (call "RPCServer.ListBreakpoints" [] c)))
      = [Data (string_drop 4096 whole)]).
Proof.
  split; cbv zeta; repeat split; vm_compute; reflexivity.
Qed.

(** The same response in one piece is decoded and its result returned. *)
Example call_whole_response :
  fst (call "RPCServer.ListBreakpoints" [] (fixture_client [Data (json_dumps listing)]))
  = Return (PyList [fixture_breakpoint 1 "/tmp/a.go" 10;
                    fixture_breakpoint 2 "/tmp/a.go" 12]).
Proof. vm_compute. reflexivity. Qed.

(** C3, as the claim has it, fails on the code: the ids are compared with
    Python's [!=], under which [False] is 0 and [True] is 1.  A response
    whose id is [false] differs from the id 0 of the request, and is taken
    as its answer: nothing is raised. *)
Lemma call_accepts_false_for_zero :
  let response := PyDict [("id", PyBool false); ("result", PyInt 7); ("error", PyNone)] in
  let c := fixture_client [Data (json_dumps response)] in
  decoded_response c = Return response
  /\ PyBool false <> PyInt (id_counter c)
  /\ fst (call "RPCServer.ListBreakpoints" [] c) = Return (PyInt 7)
  /\ ~ (exists e, fst (call "RPCServer.ListBreakpoints" [] c) = Raise e).
Proof.
  cbv zeta. split; [vm_compute; reflexivity|]. split; [discriminate|].
  split; [vm_compute; reflexivity|]. intros [e H]. vm_compute in H. discriminate.
Qed.

(** C3, amended: when the decoded response carries an id that is not equal
    to the one of the request, in the sense of Python's [==], the call
    raises the exception with the "expected id" message, which holds the
    two ids and the error of the response.  It is an [Exception], the
    class of the server's error too: the code has no class of its own for
    it.  The response is not returned, and it is consumed from the socket,
    so no later call reads it either. *)
Theorem call_id_mismatch_raises name params c kvs :
  decoded_response c = Return (PyDict kvs) ->
  py_eq_int (default PyNone (assoc "id" kvs)) (id_counter c) = false ->
  let raised :=
    Exception_msg (Fmt "expected id=%s, received id=%s: %s"
                       [PyInt (id_counter c);
                        default PyNone (assoc "id" kvs);
                        default PyNone (assoc "error" kvs)]) in
  fst (call name params c) = Raise raised
  /\ class_of raised = "Exception"
  /\ class_of raised = class_of (Exception_obj (default PyNone (assoc "error" kvs)))
  /\ inbox (socket (snd (call name params c))) = unread c.
Proof.
  intros Hresp Hid. cbv zeta. rewrite call_eq. cbn [fst snd].
  split; [|repeat split].
  unfold outcome. rewrite Hresp. cbv zeta. now rewrite Hid.
Qed.

Lemma call_id_mismatch_raises_witness :
  let c := fixture_client [Data (json_dumps (response_dict 5 (PyInt 1) PyNone));
                           Data (json_dumps (response_dict 1 (PyInt 2) PyNone))] in
  let raised :=
    Exception_msg (Fmt "expected id=%s, received id=%s: %s" [PyInt 0; PyInt 5; PyNone]) in
  fst (call "RPCServer.ListBreakpoints" [] c) = Raise raised
  /\ class_of raised = "Exception"
  /\ class_of raised = class_of (Exception_obj PyNone)
  /\ inbox (socket (snd (call "RPCServer.ListBreakpoints" [] c)))
     = [Data (json_dumps (response_dict 1 (PyInt 2) PyNone))].
Proof.
  cbv zeta.
  apply (call_id_mismatch_raises "RPCServer.ListBreakpoints" []
           (fixture_client [Data (json_dumps (response_dict 5 (PyInt 1) PyNone));
                            Data (json_dumps (response_dict 1 (PyInt 2) PyNone))])
           [("id", PyInt 5); ("result", PyInt 1); ("error", PyNone)]).
  - vm_compute. reflexivity.
  - vm_compute. reflexivity.
Defined.

(** C4: when the decoded response carries the id of the request, the call
    raises an exception holding the response's [error] as it is when that
    is not [None], and returns the response's [result] otherwise; so it
    raises the server's error exactly when [error] is not [None]. *)
Theorem call_matching_id_outcome name params c kvs :
  decoded_response c = Return (PyDict kvs) ->
  py_eq_int (default PyNone (assoc "id" kvs)) (id_counter c) = true ->
  let err := default PyNone (assoc "error" kvs) in
  (err <> PyNone -> fst (call name params c) = Raise (Exception_obj err))
  /\ (err = PyNone -> fst (call name params c) = Return (default PyNone (assoc "result" kvs)))
  /\ ((exists payload, fst (call name params c) = Raise (Exception_obj payload))
      <-> err <> PyNone).
Proof.
  intros Hresp Hid err. rewrite call_result. unfold outcome. rewrite Hresp.
  cbv zeta. rewrite Hid. fold err.
  destruct (is_None err) eqn:Hn.
  - apply is_None_spec in Hn. repeat split; try congruence.
    intros [payload H]. discriminate.
  - apply is_None_false in Hn. repeat split; try congruence. eauto.
Qed.

Lemma call_matching_id_outcome_witness :
  let c := fixture_client [Data (json_dumps (response_dict 0 PyNone (PyStr "boom")))] in
  fst (call "RPCServer.Command" [PyInt 3] c) = Raise (Exception_obj (PyStr "boom")).
Proof.
  cbv zeta.
  apply (call_matching_id_outcome "RPCServer.Command" [PyInt 3]
           (fixture_client [Data (json_dumps (response_dict 0 PyNone (PyStr "boom")))])
           [("id", PyInt 0); ("result", PyNone); ("error", PyStr "boom")]).
  - vm_compute. reflexivity.
  - vm_compute. reflexivity.
  - discriminate.
Defined.

(** C10: the id is checked before the error field.  A response with
    another id and an error raises the id-mismatch exception, not the
    server's error; and whenever a call raises the server's error, the
    response carried the id of the request. *)
Theorem call_checks_id_before_error :
  (let c := fixture_client [Data (json_dumps (response_dict 5 PyNone (PyStr "boom")))] in
   decoded_response c = Return (response_dict 5 PyNone (PyStr "boom"))
   /\ fst (call "RPCServer.Command" [] c)
      = Raise (Exception_msg (Fmt "expected id=%s, received id=%s: %s"
                                  [PyInt 0; PyInt 5; PyStr "boom"])))
  /\
  (forall name params c payload,
     fst (call name params c) = Raise (Exception_obj payload) ->
     exists kvs,
       decoded_response c = Return (PyDict kvs)
       /\ py_eq_int (default PyNone (assoc "id" kvs)) (id_counter c) = true
       /\ default PyNone (assoc "error" kvs) = payload
       /\ payload <> PyNone).
Proof.
  split.
  - cbv zeta. split; vm_compute; reflexivity.
  - intros name params c payload. rewrite call_result. unfold outcome.
    destruct (decoded_response c) as [[| | | | |kvs]|e] eqn:Hresp; try discriminate.
    + cbv zeta.
      destruct (py_eq_int (default PyNone (assoc "id" kvs)) (id_counter c)) eqn:Hid;
        [|discriminate].
      destruct (is_None (default PyNone (assoc "error" kvs))) eqn:Hn; [discriminate|].
      inversion 1; subst payload. exists kvs. apply is_None_false in Hn. auto.
    + intros H. inversion H; subst e.
      destruct (decoded_response_raises _ _ Hresp) as [He|[He|[what He]]]; discriminate.
Qed.

Lemma call_checks_id_before_error_witness :
  let c := fixture_client [Data (json_dumps (response_dict 0 PyNone (PyStr "boom")))] in
  exists kvs,
    decoded_response c = Return (PyDict kvs)
    /\ py_eq_int (default PyNone (assoc "id" kvs)) (id_counter c) = true
    /\ default PyNone (assoc "error" kvs) = PyStr "boom"
    /\ PyStr "boom" <> PyNone.
Proof.
  cbv zeta.
  apply (proj2 call_checks_id_before_error "RPCServer.Command" []
           (fixture_client [Data (json_dumps (response_dict 0 PyNone (PyStr "boom")))])
           (PyStr "boom")).
  vm_compute. reflexivity.
Defined.

(** *** Request ids *)

Lemma calls_counter cs : forall c,
  id_counter (snd (calls cs c)) = id_counter c + Z.of_nat (length cs).
Proof.
  induction cs as [|[name params] rest IH]; intros c; cbn [calls].
  - cbn [snd length]. lia.
  - rewrite call_eq. specialize (IH (after_call name params c)).
    destruct (calls rest (after_call name params c)) as [rs c2]. cbn [snd] in *.
    rewrite IH. unfold after_call; cbn [id_counter length]. lia.
Qed.

Lemma requests_from_length cs : forall id, length (requests_from id cs) = length cs.
Proof.
  induction cs as [|[name params] rest IH]; intros id; cbn [requests_from length];
    [reflexivity|]. now rewrite IH.
Qed.

Lemma requests_from_lookup cs : forall id (n : nat) name params,
  cs !! n = Some (name, params) ->
  requests_from id cs !! n
  = Some (json_dumps (PyDict [("id", PyInt (id + Z.of_nat n)); ("params", PyList params);
                              ("method", PyStr name)])).
Proof.
  induction cs as [|[name0 params0] rest IH]; intros id n name params Hn.
  - destruct n; discriminate.
  - destruct n as [|n]; cbn [requests_from].
    + injection Hn as -> ->. cbn. now rewrite Z.add_0_r.
    + etrans; [exact (IH (id + 1) n name params Hn)|].
      do 6 f_equal. lia.
Qed.

(** Once the system refuses the writes of a transport, it refuses them
    all: no later call writes anything. *)
Lemma refused_after_call name params c :
  refuses (socket c) = true ->
  refuses (socket (after_call name params c)) = true
  /\ sent (socket (after_call name params c)) = sent (socket c).
Proof.
  unfold refuses, after_call, unread, recv. cbn [socket sent inbox wrote_after_close].
  destruct (inbox (socket c)) as [|a rest] eqn:Hin; [|discriminate].
  intros Hflag. cbn [snd inbox]. rewrite Hin. unfold refuses. rewrite Hin, Hflag. auto.
Qed.

Lemma refused_calls cs : forall c,
  refuses (socket c) = true ->
  sent (socket (snd (calls cs c))) = sent (socket c).
Proof.
  induction cs as [|[name params] rest IH]; intros c Hrefused; cbn [calls].
  - reflexivity.
  - rewrite call_eq.
    destruct (refused_after_call name params c Hrefused) as [Hstill Hsame].
    specialize (IH (after_call name params c) Hstill).
    destruct (calls rest (after_call name params c)) as [rs c2]. cbn [snd] in *.
    now rewrite IH.
Qed.

(** A call reads at most one arrival. *)
Lemma unread_length c : (length (inbox (socket c)) <= S (length (unread c)))%nat.
Proof.
  unfold unread, recv. destruct (inbox (socket c)) as [|[b|] rest]; cbn [snd inbox length].
  - lia.
  - destruct (string_drop 4096 b); cbn [length]; lia.
  - lia.
Qed.

Lemma accepted_after_call name params c :
  refuses (socket c) = false ->
  sent (socket (after_call name params c))
  = (sent (socket c)
     ++ [json_dumps (PyDict [("id", PyInt (id_counter c)); ("params", PyList params);
                             ("method", PyStr name)])])%list
  /\ (refuses (socket (after_call name params c)) = true -> inbox (socket c) = []).
Proof.
  intros Haccepts. unfold after_call. cbn [socket sent inbox wrote_after_close].
  rewrite Haccepts. split; [reflexivity|].
  unfold refuses. cbn [inbox wrote_after_close].
  destruct (inbox (socket c)); [reflexivity|]. now destruct (unread c).
Qed.

(** The requests that a sequence of calls writes are those of its first
    calls, numbered as they come; the writing goes on at least up to the
    call that finds the peer closed. *)
Lemma calls_sent cs : forall c,
  exists k : nat,
    (k <= length cs)%nat
    /\ sent (socket (snd (calls cs c)))
       = (sent (socket c) ++ take k (requests_from (id_counter c) cs))%list
    /\ (refuses (socket c) = false ->
        (Nat.min (length cs) (S (length (inbox (socket c)))) <= k)%nat).
Proof.
  induction cs as [|[name params] rest IH]; intros c.
  - exists 0%nat. cbn [calls snd length take requests_from]. rewrite app_nil_r.
    repeat split; lia.
  - cbn [calls]. rewrite call_eq.
    destruct (refuses (socket c)) eqn:Hrefuses.
    + exists 0%nat. pose proof (refused_calls ((name, params) :: rest)) as Hnone.
      specialize (Hnone c Hrefuses). cbn [calls] in Hnone. rewrite call_eq in Hnone.
      destruct (calls rest (after_call name params c)) as [rs c2]. cbn [snd] in *.
      rewrite Hnone, take_0, app_nil_r. repeat split; [lia|discriminate].
    + destruct (accepted_after_call name params c Hrefuses) as [Hsent Hclosed].
      destruct (IH (after_call name params c)) as (k & Hk & Hrest & Hmin).
      pose proof (unread_length c) as Hread.
      destruct (calls rest (after_call name params c)) as [rs c2]. cbn [snd] in *.
      exists (S k). split; [cbn [length]; lia|]. split.
      * rewrite Hrest, Hsent. cbn [requests_from take]. rewrite <- app_assoc.
        unfold after_call. cbn [id_counter]. reflexivity.
      * intros _. cbn [length].
        destruct (refuses (socket (after_call name params c))) eqn:Hnext.
        -- rewrite (Hclosed eq_refl). cbn [length]. lia.
        -- specialize (Hmin eq_refl). unfold after_call in Hmin.
           cbn [socket inbox] in Hmin. lia.
Qed.

(** A transport that [JSONClient.__init__] has just made. *)
Lemma JSONClient_init_fresh host port w c w' :
  JSONClient_init host port w = (Return c, w') ->
  id_counter c = 0 /\ sent (socket c) = [] /\ fd (socket c) = next_fd w
  /\ next_fd w' = S (next_fd w).
Proof.
  unfold JSONClient_init, bind, ask, lift, gets, modify, emit, ret. cbn [fst snd].
  destruct (create_connection (env w) (clock w) host port) as [script|e]; [|discriminate].
  intros [= <- <-]. cbn. auto.
Qed.

Lemma JSONClient_init_accepts host port w c w' :
  JSONClient_init host port w = (Return c, w') -> refuses (socket c) = false.
Proof.
  unfold JSONClient_init, bind, ask, lift, gets, modify, emit, ret. cbn [fst snd].
  destruct (create_connection (env w) (clock w) host port) as [script|e]; [|discriminate].
  intros [= <- <-]. unfold refuses. cbn. now destruct script.
Qed.

(** C2: every transport starts its own count at 0 when it is made, and
    every call on it uses up one id, whatever its outcome.  The requests
    that reach the socket are those of the first [k] calls, in order, and
    the request of the n-th call (from 0) is the dictionary with id n,
    the parameters and the method of that call; all of them are written
    as long as something is left to read on the connection, and at least
    up to the first call that finds the peer closed. *)
Theorem call_ids_count_from_zero host port w c w' cs :
  JSONClient_init host port w = (Return c, w') ->
  id_counter c = 0
  /\ id_counter (snd (calls cs c)) = Z.of_nat (length cs)
  /\ exists k : nat,
       length (sent (socket (snd (calls cs c)))) = k
       /\ (k <= length cs)%nat
       /\ (Nat.min (length cs) (S (length (inbox (socket c)))) <= k)%nat
       /\ forall (n : nat) name params,
            (n < k)%nat ->
            cs !! n = Some (name, params) ->
            sent (socket (snd (calls cs c))) !! n
            = Some (json_dumps (PyDict [("id", PyInt (Z.of_nat n));
                                        ("params", PyList params);
                                        ("method", PyStr name)])).
Proof.
  intros Hinit. destruct (JSONClient_init_fresh _ _ _ _ _ Hinit) as (Hid & Hsent & _ & _).
  pose proof (JSONClient_init_accepts _ _ _ _ _ Hinit) as Haccepts.
  split; [exact Hid|]. split; [rewrite calls_counter, Hid; lia|].
  destruct (calls_sent cs c) as (k & Hk & Hwritten & Hmin).
  rewrite Hsent, Hid in Hwritten. cbn [app] in Hwritten.
  exists k. rewrite Hwritten. split; [|split; [exact Hk|split; [exact (Hmin Haccepts)|]]].
  - rewrite length_take, requests_from_length. lia.
  - intros n name params Hn Hcall. rewrite lookup_take_lt by exact Hn.
    now rewrite (requests_from_lookup cs 0 n name params Hcall).
Qed.

Lemma call_ids_count_from_zero_witness :
  let script := [Data (json_dumps (response_dict 0 (PyList []) PyNone));
                 Data (json_dumps (response_dict 7 PyNone PyNone))] in
  let cs := [("RPCServer.ListBreakpoints", []);
             ("RPCServer.ClearBreakpoint", [PyInt 4]);
             ("RPCServer.ListBreakpoints", []);
             ("RPCServer.ListBreakpoints", [])] in
  let c := fixture_client script in
  id_counter c = 0
  /\ id_counter (snd (calls cs c)) = Z.of_nat (length cs)
  /\ exists k : nat,
       length (sent (socket (snd (calls cs c)))) = k
       /\ (k <= length cs)%nat
       /\ (Nat.min (length cs) (S (length (inbox (socket c)))) <= k)%nat
       /\ forall (n : nat) name params,
            (n < k)%nat ->
            cs !! n = Some (name, params) ->
            sent (socket (snd (calls cs c))) !! n
            = Some (json_dumps (PyDict [("id", PyInt (Z.of_nat n));
                                        ("params", PyList params);
                                        ("method", PyStr name)])).
Proof.
  cbv zeta.
  apply (call_ids_count_from_zero "localhost" 52000
           (fixture_world [] [Data (json_dumps (response_dict 0 (PyList []) PyNone));
                              Data (json_dumps (response_dict 7 PyNone PyNone))] true)
           _
           (set_trace [EvConnect 0 "localhost" 52000]
              (set_next_fd 1
                 (set_clock 1
                    (fixture_world [] [Data (json_dumps (response_dict 0 (PyList []) PyNone));
                                       Data (json_dumps (response_dict 7 PyNone PyNone))]
                       true))))).
  reflexivity.
Defined.

(** The four calls of the witness, run: an answer, an id mismatch, the
    peer closed, and the write refused; three requests have reached the
    socket, with the ids 0, 1 and 2, and the counter stands at 4. *)
Example calls_on_a_closing_connection :
  let c := snd (calls [("RPCServer.ListBreakpoints", []);
                       ("RPCServer.ClearBreakpoint", [PyInt 4]);
                       ("RPCServer.ListBreakpoints", []);
                       ("RPCServer.ListBreakpoints", [])]
                  (fixture_client [Data (json_dumps (response_dict 0 (PyList []) PyNone));
                                   Data (json_dumps (response_dict 7 PyNone PyNone))])) in
  fst (calls [("RPCServer.ListBreakpoints", []);
              ("RPCServer.ClearBreakpoint", [PyInt 4]);
              ("RPCServer.ListBreakpoints", []);
              ("RPCServer.ListBreakpoints", [])]
         (fixture_client [Data (json_dumps (response_dict 0 (PyList []) PyNone));
                          Data (json_dumps (response_dict 7 PyNone PyNone))]))
  = [Return (PyList []);
     Raise (Exception_msg (Fmt "expected id=%s, received id=%s: %s"
                               [PyInt 1; PyInt 7; PyNone]));
     Raise ValueError;
     Raise (OSError "BrokenPipeError")]
  /\ sent (socket c)
     = [json_dumps (PyDict [("id", PyInt 0); ("params", PyList []);
                            ("method", PyStr "RPCServer.ListBreakpoints")]);
        json_dumps (PyDict [("id", PyInt 1); ("params", PyList [PyInt 4]);
                            ("method", PyStr "RPCServer.ClearBreakpoint")]);
        json_dumps (PyDict [("id", PyInt 2); ("params", PyList []);
                            ("method", PyStr "RPCServer.ListBreakpoints")])]
  /\ id_counter c = 4.
Proof. cbv zeta. repeat split; vm_compute; reflexivity. Qed.

(** Three calls on a connection that is reset: an answer, an id mismatch,
    the reset. *)
Example calls_outcomes :
  fst (calls [("RPCServer.ListBreakpoints", []);
              ("RPCServer.ClearBreakpoint", [PyInt 4]);
              ("RPCServer.ListBreakpoints", [])]
         (fixture_client [Data (json_dumps (response_dict 0 (PyList []) PyNone));
                          Data (json_dumps (response_dict 7 PyNone PyNone));
                          Reset]))
  = [Return (PyList []);
     Raise (Exception_msg (Fmt "expected id=%s, received id=%s: %s"
                               [PyInt 1; PyInt 7; PyNone]));
     Raise (OSError "ConnectionResetError")].
Proof. vm_compute. reflexivity. Qed.

(** A second transport, made after the first has been used, counts from 0
    again. *)
Lemma second_transport_counts_from_zero host1 port1 host2 port2 w c1 w1 c2 w2 cs :
  JSONClient_init host1 port1 w = (Return c1, w1) ->
  JSONClient_init host2 port2 w1 = (Return c2, w2) ->
  id_counter (snd (calls cs c1)) = Z.of_nat (length cs)
  /\ id_counter c2 = 0
  /\ fd (socket c1) <> fd (socket c2).
Proof.
  intros H1 H2.
  destruct (JSONClient_init_fresh _ _ _ _ _ H1) as (Hid1 & _ & Hfd1 & Hn1).
  destruct (JSONClient_init_fresh _ _ _ _ _ H2) as (Hid2 & _ & Hfd2 & _).
  rewrite calls_counter, Hid1, Hfd1, Hfd2, Hn1. split; [lia|split; [exact Hid2|lia]].
Qed.

(** ** Launching and stopping *)

Ltac run_monad :=
  repeat progress
    (unfold bind, ret, raise, gets, modify, lift, ask, emit, try_except, zoom,
       Logger_log, settings_get_sessions, settings_set_sessions;
     cbn beta iota zeta
       delta [fst snd env clock next_fd sessions_setting ActiveSession trace
              set_clock set_next_fd set_sessions_setting set_ActiveSession set_trace]).

(** C5, as the claim has it, fails on the code: launching a program that
    does not exist raises nothing.  [launch] logs and returns normally. *)
Lemma launch_missing_program_returns :
  let w := fixture_world [] [] true in
  os_path_isfile (env w) (clock w) "/tmp/missing" = false
  /\ fst (launch "/tmp/missing" None "Default" w) = Return tt
  /\ ~ (exists e, fst (launch "/tmp/missing" None "Default" w) = Raise e).
Proof.
  cbv zeta. split; [reflexivity|]. split; [reflexivity|].
  intros [e H]. vm_compute in H. discriminate.
Qed.

(** C5, amended: when the program path does not name an existing file,
    [launch] returns normally after logging the fact; the check is the one
    question it has put to the system, it has spawned nothing (the log
    entry is the only event), and the registry and the active session are
    as they were. *)
Theorem launch_missing_program_only_logs program key desc w :
  os_path_isfile (env w) (clock w) program = false ->
  let w' := snd (launch program key desc w) in
  fst (launch program key desc w) = Return tt
  /\ trace w' = (trace w ++ [EvLog "build completed but {0} doesn't exist" [LStr program]])%list
  /\ clock w' = S (clock w)
  /\ sessions_setting w' = sessions_setting w
  /\ ActiveSession w' = ActiveSession w
  /\ next_fd w' = next_fd w.
Proof.
  intros Hfile. unfold launch. run_monad. rewrite Hfile. cbn. auto 10.
Qed.

Lemma launch_missing_program_only_logs_witness :
  let w := fixture_world ["/tmp/prog"] [] true in
  let w' := snd (launch "/tmp/missing" None "Default" w) in
  fst (launch "/tmp/missing" None "Default" w) = Return tt
  /\ trace w' = [EvLog "build completed but {0} doesn't exist" [LStr "/tmp/missing"]]
  /\ clock w' = 1%nat
  /\ sessions_setting w' = None
  /\ ActiveSession w' = None
  /\ next_fd w' = 0%nat.
Proof.
  cbv zeta.
  apply (launch_missing_program_only_logs "/tmp/missing" None "Default"
           (fixture_world ["/tmp/prog"] [] true)).
  reflexivity.
Defined.

(** For contrast, a launch of a program that exists: the port is probed,
    the debugger is spawned, the record is stored under the generated key
    and the session becomes the active one. *)
Example launch_existing_program :
  let w' := snd (launch "/tmp/prog" None "TestFoo" (fixture_world ["/tmp/prog"] [] true)) in
  registry w' !! "0123456789"
  = Some {| s_program := "/tmp/prog"; s_pid := 4242; s_host := "localhost";
            s_port := 52002; s_addr := "localhost:52002"; s_desc := "TestFoo" |}
  /\ (session_key <$> ActiveSession w') = Some "0123456789"
  /\ trace w' !! 1%nat
     = Some (EvSpawn "dlv" ["--headless=true"; "--listen=localhost:52002"; "exec"; "/tmp/prog"]
                     4242).
Proof. cbv zeta. repeat split; vm_compute; reflexivity. Qed.

(** C7: stopping a session that is in the registry returns normally
    whatever becomes of the signal and of the reaping; the registry is
    written without the key before the signal is sent, and it is not
    written again, so the record is gone however the kill ends; a failure
    of the kill or of the reaping is logged as a warning. *)
Theorem stop_removes_record_before_kill k r w :
  registry w !! k = Some r ->
  let w' := snd (stop k w) in
  fst (stop k w) = Return tt
  /\ sessions_setting w' = Some (delete k (registry w))
  /\ registry w' !! k = None
  /\ trace w' = (trace w
                 ++ [EvLog "stopping session: {0}" [LRecord r];
                     EvSettingsSet (delete k (registry w))]
                 ++ teardown_events (env w) (clock w) k r)%list
  /\ existsb is_settings_set (teardown_events (env w) (clock w) k r) = false.
Proof.
  intros Hk. unfold stop. run_monad. rewrite Hk. run_monad.
  unfold teardown_events.
  destruct (os_kill (env w) (clock w) (s_pid r)) as [[]|x] eqn:Hkill; cbn [fst snd];
    [destruct (os_waitpid (env w) (S (clock w)) (s_pid r)) as [[]|y] eqn:Hwait|];
    cbn; rewrite ?Hkill, ?Hwait; cbn;
    rewrite <- !app_assoc; cbn [app];
    (split; [reflexivity|]); (split; [reflexivity|]);
    (split; [apply lookup_delete_eq|]); (split; reflexivity).
Qed.

Lemma stop_removes_record_before_kill_witness :
  let w := set_sessions_setting (Some {["0123456789" := fixture_record]})
             (fixture_world [] [] false) in
  let w' := snd (stop "0123456789" w) in
  fst (stop "0123456789" w) = Return tt
  /\ sessions_setting w' = Some (delete "0123456789" (registry w))
  /\ registry w' !! "0123456789" = None
  /\ trace w' = (trace w
                 ++ [EvLog "stopping session: {0}" [LRecord fixture_record];
                     EvSettingsSet (delete "0123456789" (registry w))]
                 ++ teardown_events (env w) (clock w) "0123456789" fixture_record)%list
  /\ existsb is_settings_set (teardown_events (env w) (clock w) "0123456789" fixture_record)
     = false.
Proof.
  cbv zeta.
  apply (stop_removes_record_before_kill "0123456789" fixture_record
           (set_sessions_setting (Some {["0123456789" := fixture_record]})
              (fixture_world [] [] false))).
  vm_compute. reflexivity.
Defined.

(** The kill of the fixture fails; the trace of the stop shows the warning
    after the registry has been written. *)
Example stop_with_failing_kill :
  trace (snd (stop "0123456789"
                (set_sessions_setting (Some {["0123456789" := fixture_record]})
                   (fixture_world [] [] false))))
  = [EvLog "stopping session: {0}" [LRecord fixture_record];
     EvSettingsSet ∅;
     EvKill 4242;
     EvLog "warning: couldn't kill pid {0} debugging session pid {1}: {2}"
           [LInt 4242; LStr "0123456789"; LExn (OSError "ProcessLookupError")];
     EvLog "deleted session {0}" [LStr "0123456789"]].
Proof. vm_compute. reflexivity. Qed.

(** C8: stopping a session that is not in the registry returns normally
    and changes nothing but the log: the registry is not written and no
    signal is sent. *)
Theorem stop_unknown_session_only_logs k w :
  registry w !! k = None ->
  stop k w = (Return tt,
              set_trace (trace w ++ [EvLog "no session '{0}' found" [LStr k]])%list w)
  /\ sessions_setting (snd (stop k w)) = sessions_setting w
  /\ ActiveSession (snd (stop k w)) = ActiveSession w
  /\ clock (snd (stop k w)) = clock w
  /\ existsb is_kill (drop (length (trace w)) (trace (snd (stop k w)))) = false
  /\ existsb is_settings_set (drop (length (trace w)) (trace (snd (stop k w)))) = false.
Proof.
  intros Hk. unfold stop. run_monad. rewrite Hk. run_monad.
  cbn [trace set_trace sessions_setting ActiveSession clock].
  rewrite drop_app_length. cbn. auto 10.
Qed.

Lemma stop_unknown_session_only_logs_witness :
  let w := set_sessions_setting (Some {["0123456789" := fixture_record]})
             (fixture_world [] [] true) in
  stop "feedfacade" w
  = (Return tt, set_trace [EvLog "no session '{0}' found" [LStr "feedfacade"]] w)
  /\ sessions_setting (snd (stop "feedfacade" w)) = sessions_setting w
  /\ ActiveSession (snd (stop "feedfacade" w)) = ActiveSession w
  /\ clock (snd (stop "feedfacade" w)) = clock w
  /\ existsb is_kill (drop (length (trace w)) (trace (snd (stop "feedfacade" w)))) = false
  /\ existsb is_settings_set
       (drop (length (trace w)) (trace (snd (stop "feedfacade" w)))) = false.
Proof.
  cbv zeta.
  apply (stop_unknown_session_only_logs "feedfacade"
           (set_sessions_setting (Some {["0123456789" := fixture_record]})
              (fixture_world [] [] true))).
  vm_compute. reflexivity.
Defined.

(** ** Sessions *)

Lemma rpc_call_connected name params s c :
  _rpc (fst s) = Some c ->
  rpc_call name params s
  = (outcome (id_counter c) (decoded_response c),
     (set_rpc (Some (after_call name params c)) (fst s), snd s)).
Proof.
  intros Hc. unfold rpc_call, bind, rpc, on_rpc. rewrite Hc. rewrite Hc.
  now rewrite call_eq.
Qed.

Lemma rpc_call_unconnected name params s :
  _rpc (fst s) = None ->
  rpc_call name params s
  = match JSONClient_init (host (fst s)) (port (fst s)) (snd s) with
    | (Return c, w) =>
        (outcome (id_counter c) (decoded_response c),
         (set_rpc (Some (after_call name params c)) (fst s), w))
    | (Raise e, w) => (Raise e, (fst s, w))
    end.
Proof.
  intros Hc. unfold rpc_call, bind, rpc, on_rpc. rewrite Hc.
  destruct (JSONClient_init _ _ _) as [[c|e] w]; [|reflexivity].
  cbn [fst snd _rpc set_rpc]. now rewrite call_eq.
Qed.

(** A call returns a value only if its request has been written and
    something has been read; the system then takes the next write too. *)
Lemma returned_call_accepts name params c v :
  outcome (id_counter c) (decoded_response c) = Return v ->
  refuses (socket c) = false
  /\ refuses (socket (after_call name params c)) = false.
Proof.
  unfold outcome, decoded_response.
  destruct (refuses (socket c)) eqn:Hrefuses; [discriminate|].
  intros Hreturn. split; [reflexivity|].
  unfold refuses, after_call. cbn [socket inbox wrote_after_close].
  destruct (inbox (socket c)) as [|a rest] eqn:Hin; [|now destruct (unread c)].
  exfalso. revert Hreturn. unfold recv. rewrite Hin. cbn [fst].
  unfold bytes_decode; cbn [String.list_ascii_of_string forallb].
  change (json_loads EmptyString) with (@Raise value ValueError). discriminate.
Qed.

(** A call through [self.rpc] that returns has written its request, with
    the next id, on the transport that the session has from then on, and
    leaves that transport ready for the next request. *)
Lemma rpc_call_returns name params s v s1 :
  rpc_call name params s = (Return v, s1) ->
  (exists c1, _rpc (fst s1) = Some c1 /\ refuses (socket c1) = false)
  /\ transport_sent s1
     = (transport_sent s
        ++ [json_dumps (request_dict (next_request_id s) name params)])%list
  /\ next_request_id s1 = next_request_id s + 1.
Proof.
  unfold transport_sent, next_request_id.
  destruct (_rpc (fst s)) as [c|] eqn:Hc.
  - rewrite (rpc_call_connected _ _ _ _ Hc). intros [= Hreturn <-].
    destruct (returned_call_accepts name params c v Hreturn) as [Hacc Hnext].
    cbn [fst snd _rpc set_rpc]. split; [eauto|].
    unfold after_call. cbn [socket sent id_counter]. rewrite Hacc. auto.
  - rewrite (rpc_call_unconnected _ _ _ Hc).
    destruct (JSONClient_init _ _ _) as [[c|e] w] eqn:Hinit; [|discriminate].
    destruct (JSONClient_init_fresh _ _ _ _ _ Hinit) as (Hid & Hsent & _).
    intros [= Hreturn <-].
    destruct (returned_call_accepts name params c v Hreturn) as [Hacc Hnext].
    cbn [fst snd _rpc set_rpc]. split; [eauto|].
    unfold after_call. cbn [socket sent id_counter]. rewrite Hacc, Hid, Hsent. auto.
Qed.

(** With a transport in place that takes the write, a call through
    [self.rpc] writes its request on it whatever the outcome. *)
Lemma rpc_call_writes name params s c :
  _rpc (fst s) = Some c ->
  refuses (socket c) = false ->
  let s1 := snd (rpc_call name params s) in
  (exists c1, _rpc (fst s1) = Some c1)
  /\ transport_sent s1
     = (transport_sent s
        ++ [json_dumps (request_dict (next_request_id s) name params)])%list
  /\ next_request_id s1 = next_request_id s + 1.
Proof.
  intros Hc Hacc. cbv zeta. rewrite (rpc_call_connected _ _ _ _ Hc).
  unfold transport_sent, next_request_id. rewrite Hc.
  cbn [fst snd _rpc set_rpc after_call socket sent id_counter]. rewrite Hacc. eauto.
Qed.

Lemma in_world_session {A} (m : M World A) s :
  fst (snd (in_world m s)) = fst s.
Proof. unfold in_world, zoom. destruct (m (snd s)). reflexivity. Qed.

Lemma scan_breakpoints_find filename line items :
  forallb is_breakpoint items = true ->
  scan_breakpoints filename line items
  = Return (default PyNone (find (at_location filename line) items)).
Proof.
  induction items as [|bp rest IH]; [reflexivity|].
  cbn [forallb scan_breakpoints find]. intros [Hbp Hrest]%andb_prop.
  unfold is_breakpoint in Hbp. unfold at_location.
  destruct (py_getitem bp "id"); [|discriminate].
  destruct (py_getitem bp "file") as [f|]; [|discriminate].
  destruct (py_getitem bp "line") as [l|]; [|discriminate].
  destruct (py_eq_str f filename); cbn [andb]; [|now apply IH].
  destruct (py_eq_int l line); [reflexivity|now apply IH].
Qed.

Lemma is_breakpoint_truthy bp : is_breakpoint bp = true -> py_truthy bp = true.
Proof.
  destruct bp as [| | | | |kvs]; try discriminate.
  destruct kvs; [discriminate|reflexivity].
Qed.

Lemma find_is_breakpoint filename line items bp :
  forallb is_breakpoint items = true ->
  find (at_location filename line) items = Some bp ->
  is_breakpoint bp = true.
Proof.
  intros Hall Hfind. apply find_some in Hfind as [Hin _].
  rewrite forallb_forall in Hall. now apply Hall.
Qed.

Lemma bind_return {S A B} (m : M S A) (k : A -> M S B) s a s1 :
  m s = (Return a, s1) -> bind m k s = k a s1.
Proof. intros H. unfold bind. now rewrite H. Qed.

Lemma bind_raise {S A B} (m : M S A) (k : A -> M S B) s e s1 :
  m s = (Raise e, s1) -> bind m k s = (Raise e, s1).
Proof. intros H. unfold bind. now rewrite H. Qed.

Lemma bind_lift_return {S A B} (a : A) (k : A -> M S B) s :
  bind (lift (Return a)) k s = k a s.
Proof. reflexivity. Qed.

Lemma rpc_connected s c : _rpc (fst s) = Some c -> rpc s = (Return tt, s).
Proof. intros H. unfold rpc. now rewrite H. Qed.

Lemma on_rpc_call_connected name params s c :
  _rpc (fst s) = Some c ->
  on_rpc (call name params) s
  = (outcome (id_counter c) (decoded_response c),
     (set_rpc (Some (after_call name params c)) (fst s), snd s)).
Proof. intros H. unfold on_rpc. rewrite H. now rewrite call_eq. Qed.

Lemma in_world_log template args s :
  in_world (Logger_log template args) s
  = (Return tt, (fst s, set_trace (trace (snd s) ++ [EvLog template args])%list (snd s))).
Proof. reflexivity. Qed.

Lemma bind_in_world_session {A B} (m : M Session A) (k : A -> M World B) s :
  fst (snd (bind m (fun a => in_world (k a)) s)) = fst (snd (m s)).
Proof.
  unfold bind. destruct (m s) as [[a|e] s']; [apply in_world_session|reflexivity].
Qed.

Lemma transport_sent_fst s s' : fst s = fst s' -> transport_sent s = transport_sent s'.
Proof. unfold transport_sent. now intros ->. Qed.

Lemma next_request_id_fst s s' : fst s = fst s' -> next_request_id s = next_request_id s'.
Proof. unfold next_request_id. now intros ->. Qed.

(** C6: [clear_breakpoint] first lists the breakpoints.  When no entry of
    the list is at the file and line, it logs, returns normally, and has
    written nothing but the listing request.  When some entry is, it
    writes one [ClearBreakpoint] request, whose parameters are the id of
    the first such entry of the list and nothing else, and after it at most
    the listing request of the closing log line. *)
Theorem clear_breakpoint_clears_first_match filename line s items s1 :
  get_breakpoints s = (Return (PyList items), s1) ->
  forallb is_breakpoint items = true ->
  let final := snd (clear_breakpoint filename line s) in
  let n := next_request_id s in
  let listing_request m :=
    json_dumps (PyDict [("id", PyInt m); ("params", PyList []);
                        ("method", PyStr "RPCServer.ListBreakpoints")]) in
  transport_sent s1 = (transport_sent s ++ [listing_request n])%list
  /\ match find (at_location filename line) items with
     | None =>
         fst (clear_breakpoint filename line s) = Return tt
         /\ transport_sent final = transport_sent s1
         /\ trace (snd final)
            = (trace (snd s1)
               ++ [EvLog "no breakpoint found at {0}:{1}" [LStr filename; LInt line]])%list
     | Some bp =>
         exists id tail,
           py_getitem bp "id" = Return id
           /\ transport_sent final
              = (transport_sent s1
                 ++ json_dumps (PyDict [("id", PyInt (n + 1)); ("params", PyList [id]);
                                        ("method", PyStr "RPCServer.ClearBreakpoint")])
                 :: tail)%list
           /\ (tail = [] \/ tail = [listing_request (n + 2)])
     end.
Proof.
  intros Hget Hall. cbv zeta.
  destruct (rpc_call_returns _ _ _ _ _ Hget) as ((c1 & Hc1 & Hacc1) & Hsent1 & Hnext1).
  split; [exact Hsent1|].
  unfold clear_breakpoint.
  rewrite !(bind_return get_breakpoints _ s _ _ Hget).
  cbn [py_iter]. rewrite !bind_lift_return.
  rewrite (scan_breakpoints_find _ _ _ Hall). rewrite !bind_lift_return.
  destruct (find (at_location filename line) items) as [bp|] eqn:Hfind.
  - change (default PyNone (Some bp)) with bp.
    pose proof (find_is_breakpoint _ _ _ _ Hall Hfind) as Hbp.
    rewrite (is_breakpoint_truthy _ Hbp). cbn [negb].
    assert (exists id, py_getitem bp "id" = Return id) as [id Hid].
    { unfold is_breakpoint in Hbp. destruct (py_getitem bp "id"); [eauto|discriminate]. }
    exists id.
    rewrite !(bind_return rpc _ s1 _ _ (rpc_connected _ _ Hc1)).
    rewrite Hid, !bind_lift_return.
    pose proof (on_rpc_call_connected "RPCServer.ClearBreakpoint" [id] s1 c1 Hc1) as Hclear.
    set (s2 := (set_rpc (Some (after_call "RPCServer.ClearBreakpoint" [id] c1)) (fst s1),
                snd s1)) in *.
    assert (Hsent2 : transport_sent s2
                     = (transport_sent s1
                        ++ [json_dumps (request_dict (next_request_id s + 1)
                                          "RPCServer.ClearBreakpoint" [id])])%list).
    { rewrite <- Hnext1. unfold transport_sent, next_request_id. rewrite Hc1.
      subst s2. cbn [fst _rpc set_rpc after_call socket sent]. now rewrite Hacc1. }
    assert (Hnext2 : next_request_id s2 = next_request_id s + 2).
    { unfold next_request_id in *. rewrite Hc1 in Hnext1. cbn. lia. }
    destruct (outcome (id_counter c1) (decoded_response c1)) as [v|e] eqn:Hout.
    + (* the debugger has answered the clearing: the closing lines follow *)
      destruct (returned_call_accepts "RPCServer.ClearBreakpoint" [id] c1 v Hout)
        as [_ Hacc2].
      exists [json_dumps (request_dict (next_request_id s + 2) "RPCServer.ListBreakpoints" [])].
      split; [reflexivity|]. split; [|now right].
      rewrite (bind_return _ _ _ _ _ Hclear).
      erewrite bind_return by apply in_world_log.
      set (s2' := (fst s2, _)).
      rewrite (transport_sent_fst _ (snd (get_breakpoints s2')))
        by apply bind_in_world_session.
      destruct (rpc_call_writes "RPCServer.ListBreakpoints" [] s2'
                  (after_call "RPCServer.ClearBreakpoint" [id] c1) eq_refl Hacc2)
        as (_ & Hsent3 & _).
      unfold get_breakpoints. rewrite Hsent3.
      rewrite (transport_sent_fst s2' s2), (next_request_id_fst s2' s2) by reflexivity.
      rewrite Hsent2, Hnext2, <- app_assoc. reflexivity.
    + (* the clearing has raised: nothing follows *)
      exists []. split; [reflexivity|]. split; [|now left].
      rewrite (bind_raise _ _ _ _ _ Hclear). exact Hsent2.
  - change (default PyNone None) with PyNone. cbn [py_truthy negb].
    rewrite in_world_log. cbn [fst snd trace set_trace]. repeat split.
Qed.

Lemma clear_breakpoint_clears_first_match_witness :
  let script := [Data (json_dumps listing);
                 Data (json_dumps (response_dict 1 PyNone PyNone));
                 Data (json_dumps (response_dict 2 (PyList [fixture_breakpoint 1 "/tmp/a.go" 10])
                                     PyNone))] in
  let s := (DebuggingSession_init "0123456789" fixture_record, fixture_world [] script true) in
  exists id tail,
    py_getitem (fixture_breakpoint 2 "/tmp/a.go" 12) "id" = Return id
    /\ transport_sent (snd (clear_breakpoint "/tmp/a.go" 12 s))
       = (transport_sent (snd (get_breakpoints s))
          ++ json_dumps (PyDict [("id", PyInt (0 + 1)); ("params", PyList [id]);
                                 ("method", PyStr "RPCServer.ClearBreakpoint")])
          :: tail)%list
    /\ (tail = []
        \/ tail = [json_dumps (PyDict [("id", PyInt (0 + 2)); ("params", PyList []);
                                       ("method", PyStr "RPCServer.ListBreakpoints")])]).
Proof.
  cbv zeta.
  refine (proj2 (clear_breakpoint_clears_first_match "/tmp/a.go" 12
                   (DebuggingSession_init "0123456789" fixture_record,
                    fixture_world []
                      [Data (json_dumps listing);
                       Data (json_dumps (response_dict 1 PyNone PyNone));
                       Data (json_dumps
                               (response_dict 2 (PyList [fixture_breakpoint 1 "/tmp/a.go" 10])
                                  PyNone))] true)
                   [fixture_breakpoint 1 "/tmp/a.go" 10; fixture_breakpoint 2 "/tmp/a.go" 12]
                   _ _ _)).
  - vm_compute. reflexivity.
  - reflexivity.
Defined.

(** The session of the witness, run: the second entry is the one at line
    12, and its id goes into the one clearing request. *)
Example clear_breakpoint_requests :
  let script := [Data (json_dumps listing);
                 Data (json_dumps (response_dict 1 PyNone PyNone));
                 Data (json_dumps (response_dict 2 (PyList [fixture_breakpoint 1 "/tmp/a.go" 10])
                                     PyNone))] in
  let s := (DebuggingSession_init "0123456789" fixture_record, fixture_world [] script true) in
  fst (clear_breakpoint "/tmp/a.go" 12 s) = Return tt
  /\ transport_sent (snd (clear_breakpoint "/tmp/a.go" 12 s))
     = [json_dumps (request_dict 0 "RPCServer.ListBreakpoints" []);
        json_dumps (request_dict 1 "RPCServer.ClearBreakpoint" [PyInt 2]);
        json_dumps (request_dict 2 "RPCServer.ListBreakpoints" [])]
  /\ fst (clear_breakpoint "/tmp/a.go" 13 s) = Return tt
  /\ transport_sent (snd (clear_breakpoint "/tmp/a.go" 13 s))
     = [json_dumps (request_dict 0 "RPCServer.ListBreakpoints" [])].
Proof. cbv zeta. repeat split; vm_compute; reflexivity. Qed.

(** *** One transport for each session *)

Lemma keeps_transport_refl s : keeps_transport s s.
Proof. unfold keeps_transport. destruct (transport_fd s); auto. Qed.

Lemma keeps_transport_trans s1 s2 s3 :
  keeps_transport s1 s2 -> keeps_transport s2 s3 -> keeps_transport s1 s3.
Proof.
  unfold keeps_transport.
  destruct (transport_fd s1) as [n|].
  - intros [-> ->] [-> ->]. auto.
  - intros [[-> ->]|[-> ->]].
    + auto.
    + intros [-> ->]. auto.
Qed.

Create HintDb transport discriminated.

Lemma preserves_ret {A} (a : A) : preserves (ret a).
Proof. intros s. apply keeps_transport_refl. Qed.

Lemma preserves_raise {A} e : preserves (@raise Session A e).
Proof. intros s. apply keeps_transport_refl. Qed.

Lemma preserves_lift {A} (r : Result A) : preserves (lift r).
Proof. intros s. apply keeps_transport_refl. Qed.

Lemma preserves_bind {A B} (m : M Session A) (k : A -> M Session B) :
  preserves m -> (forall a, preserves (k a)) -> preserves (bind m k).
Proof.
  intros Hm Hk s. unfold bind. specialize (Hm s).
  destruct (m s) as [[a|e] s1]; cbn [snd] in *; [|exact Hm].
  eapply keeps_transport_trans; [exact Hm|apply Hk].
Qed.

Lemma preserves_if {A} (b : bool) (m1 m2 : M Session A) :
  preserves m1 -> preserves m2 -> preserves (if b then m1 else m2).
Proof. now destruct b. Qed.

Lemma preserves_log template args : preserves (in_world (Logger_log template args)).
Proof.
  intros s. rewrite in_world_log. unfold keeps_transport, transport_fd, connections.
  cbn [fst snd next_fd set_trace]. destruct (_rpc (fst s)); auto.
Qed.

Lemma preserves_rpc : preserves rpc.
Proof.
  intros s. unfold rpc, keeps_transport, transport_fd, connections.
  destruct (_rpc (fst s)) as [c|] eqn:Hc.
  - cbn [fst snd]. rewrite Hc. auto.
  - destruct (JSONClient_init _ _ _) as [[c|e] w] eqn:Hinit; cbn [fst snd _rpc set_rpc].
    + destruct (JSONClient_init_fresh _ _ _ _ _ Hinit) as (_ & _ & Hfd & Hnext).
      right. now rewrite Hfd, Hnext.
    + left. rewrite Hc. split; [reflexivity|].
      revert Hinit. unfold JSONClient_init. run_monad.
      destruct (create_connection _ _ _ _); [discriminate|]. now intros [= _ <-].
Qed.

Lemma preserves_call name params : preserves (on_rpc (call name params)).
Proof.
  intros s. unfold on_rpc, keeps_transport, transport_fd, connections.
  destruct (_rpc (fst s)) as [c|] eqn:Hc.
  - rewrite call_eq. cbn [fst snd _rpc set_rpc after_call socket fd]. auto.
  - cbn [fst snd]. rewrite Hc. auto.
Qed.

#[local] Hint Resolve preserves_ret preserves_raise preserves_lift preserves_if
  preserves_log preserves_rpc preserves_call : transport.
#[local] Hint Extern 2 (preserves (bind _ _)) =>
  apply preserves_bind; [|intros ?] : transport.

Lemma preserves_rpc_call name params : preserves (rpc_call name params).
Proof. unfold rpc_call. auto with transport. Qed.

Lemma preserves_get_breakpoints : preserves get_breakpoints.
Proof. apply preserves_rpc_call. Qed.

#[local] Hint Resolve preserves_rpc_call preserves_get_breakpoints : transport.

Ltac preserves_steps :=
  repeat first [ apply preserves_bind; [|intros ?]
               | apply preserves_if
               | solve [auto with transport] ].

Lemma preserves_perform op : preserves (perform op).
Proof.
  destruct op; unfold perform, add_breakpoint, clear_breakpoint, cont; cbv zeta;
    preserves_steps.
Qed.

Lemma perform_all_keeps_transport ops : forall s, keeps_transport s (perform_all ops s).
Proof.
  induction ops as [|op rest IH]; intros s; cbn [perform_all].
  - apply keeps_transport_refl.
  - eapply keeps_transport_trans; [apply preserves_perform|apply IH].
Qed.

Lemma perform_all_app ops1 ops2 s :
  perform_all (ops1 ++ ops2) s = perform_all ops2 (perform_all ops1 s).
Proof. revert s. induction ops1 as [|op rest IH]; intros s; [reflexivity|apply IH]. Qed.

Lemma bind_keeps_transport {A B} (m : M Session A) (k : A -> M Session B) s :
  (forall a, preserves (k a)) ->
  keeps_transport (snd (m s)) (snd (bind m k s)).
Proof.
  intros Hk. unfold bind. destruct (m s) as [[a|e] s1]; cbn [snd].
  - apply Hk.
  - apply keeps_transport_refl.
Qed.

(** Every operation begins with a call through [self.rpc]. *)
Lemma perform_begins_with_call op :
  exists name params (k : value -> M Session unit),
    perform op = bind (rpc_call name params) k /\ forall a, preserves (k a).
Proof.
  destruct op as [filename line| |filename line|]; do 3 eexists;
    (split; [reflexivity|]); intros a; cbv beta zeta; preserves_steps.
Qed.

(** The first call of a session that has no transport yet asks for the
    connection. *)
Lemma rpc_call_first name params s :
  _rpc (fst s) = None ->
  match create_connection (env (snd s)) (clock (snd s)) (host (fst s)) (port (fst s)) with
  | Return _ =>
      transport_fd (snd (rpc_call name params s)) = Some (connections s)
      /\ connections (snd (rpc_call name params s)) = S (connections s)
  | Raise e =>
      fst (rpc_call name params s) = Raise e
      /\ transport_fd (snd (rpc_call name params s)) = None
  end.
Proof.
  intros Hc. rewrite (rpc_call_unconnected _ _ _ Hc).
  unfold JSONClient_init. run_monad.
  destruct (create_connection _ _ _ _) as [script|e].
  - unfold transport_fd, connections. cbn. auto.
  - unfold transport_fd. cbn [fst snd]. now rewrite Hc.
Qed.

(** C9: a session object has no transport when it is constructed; the
    first operation on it asks for the connection and, if it is granted,
    leaves the session with that transport; from the moment the session
    has a transport, every further operation leaves it with the same one
    and makes no connection; so that over any sequence of operations at
    most one connection is made. *)
Theorem session_keeps_one_transport key session w ops :
  let s0 := (DebuggingSession_init key session, w) in
  _rpc (fst s0) = None
  /\ (forall op,
        match create_connection (env w) (clock w) (s_host session) (s_port session) with
        | Return _ =>
            transport_fd (snd (perform op s0)) = Some (next_fd w)
            /\ connections (snd (perform op s0)) = S (next_fd w)
        | Raise e =>
            fst (perform op s0) = Raise e
            /\ transport_fd (snd (perform op s0)) = None
        end)
  /\ (forall before after n,
        ops = (before ++ after)%list ->
        transport_fd (perform_all before s0) = Some n ->
        transport_fd (perform_all ops s0) = Some n
        /\ connections (perform_all ops s0) = connections (perform_all before s0))
  /\ (connections (perform_all ops s0) <= S (connections s0))%nat.
Proof.
  cbv zeta. split; [reflexivity|]. split; [|split].
  - intros op.
    destruct (perform_begins_with_call op) as (name & params & k & -> & Hk).
    pose proof (rpc_call_first name params (DebuggingSession_init key session, w) eq_refl)
      as Hfirst.
    pose proof (bind_keeps_transport (rpc_call name params) k
                  (DebuggingSession_init key session, w) Hk) as Hkeep.
    cbn [fst snd DebuggingSession_init host port] in Hfirst.
    destruct (create_connection (env w) (clock w) (s_host session) (s_port session))
      as [script|e].
    + destruct Hfirst as [Hfd Hn]. unfold keeps_transport in Hkeep.
      rewrite Hfd in Hkeep. destruct Hkeep as [-> ->]. now rewrite Hn.
    + destruct Hfirst as [Hraise Hnone]. split.
      * unfold bind. destruct (rpc_call name params _) as [[a|e'] s1]; [discriminate|].
        cbn [fst] in *. congruence.
      * revert Hnone Hraise. unfold bind.
        destruct (rpc_call name params _) as [[a|e'] s1]; [discriminate|]. auto.
  - intros before after n -> Hn. rewrite perform_all_app.
    pose proof (perform_all_keeps_transport after
                  (perform_all before (DebuggingSession_init key session, w))) as Hkeep.
    unfold keeps_transport in Hkeep. now rewrite Hn in Hkeep.
  - pose proof (perform_all_keeps_transport ops (DebuggingSession_init key session, w))
      as Hkeep.
    unfold keeps_transport, transport_fd in Hkeep. cbn [fst _rpc DebuggingSession_init] in Hkeep.
    destruct Hkeep as [[_ ->]|[_ ->]]; lia.
Qed.

Lemma session_keeps_one_transport_witness :
  let s0 := (DebuggingSession_init "0123456789" fixture_record,
             fixture_world [] session_script true) in
  let ops := [GetBreakpoints; ClearBreakpoint "/tmp/a.go" 12; Cont] in
  transport_fd (perform_all ops s0) = Some 0%nat
  /\ connections (perform_all ops s0) = connections (perform_all [GetBreakpoints] s0).
Proof.
  cbv zeta.
  refine (proj1 (proj2 (proj2
            (session_keeps_one_transport "0123456789" fixture_record
               (fixture_world [] session_script true)
               [GetBreakpoints; ClearBreakpoint "/tmp/a.go" 12; Cont])))
            [GetBreakpoints]
            [ClearBreakpoint "/tmp/a.go" 12; Cont]
            0%nat _ _).
  - reflexivity.
  - vm_compute. reflexivity.
Defined.

(** The session of the witness, run: one connection, and the requests of
    the three operations on it, numbered in one sequence. *)
Example session_requests :
  let s0 := (DebuggingSession_init "0123456789" fixture_record,
             fixture_world [] session_script true) in
  let final := perform_all [GetBreakpoints; ClearBreakpoint "/tmp/a.go" 12; Cont] s0 in
  connections final = 1%nat
  /\ List.filter (fun ev => match ev with EvConnect _ _ _ => true | _ => false end)
                 (trace (snd final))
     = [EvConnect 0 "localhost" 52000]
  /\ transport_sent final
     = [json_dumps (request_dict 0 "RPCServer.ListBreakpoints" []);
        json_dumps (request_dict 1 "RPCServer.ListBreakpoints" []);
        json_dumps (request_dict 2 "RPCServer.ClearBreakpoint" [PyInt 2]);
        json_dumps (request_dict 3 "RPCServer.ListBreakpoints" []);
        json_dumps (request_dict 4 "RPCServer.Command" [PyDict [("name", PyStr "continue")]])]
  /\ next_request_id final = 5.
Proof. cbv zeta. repeat split; vm_compute; reflexivity. Qed.

(** ** More on the transport *)

Lemma string_take_all n : forall b, (String.length b <= n)%nat -> string_take n b = b.
Proof.
  induction n as [|n IH]; intros [|ch b] Hlen; cbn [String.length] in Hlen;
    try reflexivity; try lia.
  change (String ch (string_take n b) = String ch b). f_equal. apply IH. lia.
Qed.

Lemma string_drop_all n : forall b,
  (String.length b <= n)%nat -> string_drop n b = EmptyString.
Proof.
  induction n as [|n IH]; intros [|ch b] Hlen; cbn [String.length] in Hlen;
    try reflexivity; try lia.
  change (string_drop n b = EmptyString). apply IH. lia.
Qed.

Lemma string_drop_some n : forall b,
  (n < String.length b)%nat -> string_drop n b <> EmptyString.
Proof.
  induction n as [|n IH]; intros [|ch b] Hlen; cbn [String.length] in Hlen;
    try discriminate; try lia.
  change (string_drop n b <> EmptyString). apply IH. lia.
Qed.

Lemma call_returns_only_matching_witness :
  exists kvs,
    decoded_response (fixture_client [Data (json_dumps listing)]) = Return (PyDict kvs)
    /\ py_eq_int (default PyNone (assoc "id" kvs))
                 (id_counter (fixture_client [Data (json_dumps listing)])) = true
    /\ default PyNone (assoc "error" kvs) = PyNone
    /\ PyList [fixture_breakpoint 1 "/tmp/a.go" 10; fixture_breakpoint 2 "/tmp/a.go" 12]
       = default PyNone (assoc "result" kvs).
Proof.
  apply (call_returns_only_matching "RPCServer.ListBreakpoints" []
           (fixture_client [Data (json_dumps listing)])).
  vm_compute. reflexivity.
Defined.

(** X2: the first call on a connection that the peer has closed has its
    request taken by the system, finds nothing to read and raises the
    decoder's [ValueError], not a connection error; the call after it has
    its write refused: it raises [BrokenPipeError] and writes nothing.
    Both calls use up an id. *)
Theorem call_on_closed_connection name params c :
  inbox (socket c) = [] ->
  wrote_after_close (socket c) = false ->
  let c1 := snd (call name params c) in
  fst (call name params c) = Raise ValueError
  /\ sent (socket c1)
     = (sent (socket c)
        ++ [json_dumps (PyDict [("id", PyInt (id_counter c)); ("params", PyList params);
                                ("method", PyStr name)])])%list
  /\ id_counter c1 = id_counter c + 1
  /\ forall name' params',
       fst (call name' params' c1) = Raise (OSError "BrokenPipeError")
       /\ sent (socket (snd (call name' params' c1))) = sent (socket c1)
       /\ id_counter (snd (call name' params' c1)) = id_counter c + 2.
Proof.
  intros Hclosed Hfirst. cbv zeta. rewrite !call_eq. cbn [fst snd].
  assert (Haccepts : refuses (socket c) = false).
  { unfold refuses. now rewrite Hclosed. }
  assert (Hrefuses : forall name', refuses (socket (after_call name' params c)) = true).
  { intros name'. unfold refuses, after_call, unread, recv.
    cbn [socket inbox wrote_after_close]. rewrite Hclosed. cbn [snd]. now rewrite Hclosed. }
  split; [|split; [|split]].
  - unfold outcome, decoded_response, recv. rewrite Haccepts, Hclosed. cbn [fst].
    unfold bytes_decode; cbn [String.list_ascii_of_string forallb].
    change (json_loads EmptyString) with (@Raise value ValueError). reflexivity.
  - unfold after_call. cbn [socket sent]. now rewrite Haccepts.
  - reflexivity.
  - intros name' params'. rewrite !call_eq. cbn [fst snd].
    split; [|split].
    + unfold outcome, decoded_response. now rewrite (Hrefuses name).
    + unfold after_call at 1. cbn [socket sent]. now rewrite (Hrefuses name).
    + unfold after_call. cbn [id_counter]. lia.
Qed.

Lemma call_on_closed_connection_witness :
  let c := fixture_client [] in
  let c1 := snd (call "RPCServer.ListBreakpoints" [] c) in
  fst (call "RPCServer.ListBreakpoints" [] c) = Raise ValueError
  /\ sent (socket c1)
     = (sent (socket c)
        ++ [json_dumps (PyDict [("id", PyInt (id_counter c)); ("params", PyList []);
                                ("method", PyStr "RPCServer.ListBreakpoints")])])%list
  /\ id_counter c1 = id_counter c + 1
  /\ forall name' params',
       fst (call name' params' c1) = Raise (OSError "BrokenPipeError")
       /\ sent (socket (snd (call name' params' c1))) = sent (socket c1)
       /\ id_counter (snd (call name' params' c1)) = id_counter c + 2.
Proof.
  cbv zeta.
  apply (call_on_closed_connection "RPCServer.ListBreakpoints" [] (fixture_client [])).
  - reflexivity.
  - reflexivity.
Defined.

(** X3: a response that is valid JSON but not an object (a list, a
    number, a string, [null]) makes the call raise [AttributeError]: the
    code calls [get] on whatever the decoder returned. *)
Theorem call_response_not_an_object name params c v :
  decoded_response c = Return v ->
  (forall kvs, v <> PyDict kvs) ->
  fst (call name params c) = Raise (AttributeError "get").
Proof.
  intros Hresp Hv. rewrite call_result, Hresp. unfold outcome.
  destruct v as [| | | | |kvs]; try reflexivity. now destruct (Hv kvs).
Qed.

Lemma call_response_not_an_object_witness :
  fst (call "RPCServer.ListBreakpoints" []
         (fixture_client [Data (json_dumps (PyList [PyInt 1; PyInt 2]))]))
  = Raise (AttributeError "get").
Proof.
  apply (call_response_not_an_object "RPCServer.ListBreakpoints" []
           (fixture_client [Data (json_dumps (PyList [PyInt 1; PyInt 2]))])
           (PyList [PyInt 1; PyInt 2])).
  - vm_compute. reflexivity.
  - discriminate.
Defined.

(** X4: a response that is readable in one piece of at most 4096 bytes and
    decodes to an object with the id of the request and no error is
    answered with its result, and the socket is left at the start of what
    follows the response. *)
Theorem call_single_piece_response name params c b rest kvs :
  inbox (socket c) = Data b :: rest ->
  (String.length b <= 4096)%nat ->
  bytes_decode b = Return b ->
  json_loads b = Return (PyDict kvs) ->
  py_eq_int (default PyNone (assoc "id" kvs)) (id_counter c) = true ->
  default PyNone (assoc "error" kvs) = PyNone ->
  fst (call name params c) = Return (default PyNone (assoc "result" kvs))
  /\ inbox (socket (snd (call name params c))) = rest.
Proof.
  intros Hin Hlen Hdec Hload Hid Herr. rewrite call_eq.
  cbn [fst snd after_call socket inbox].
  unfold outcome, decoded_response, unread, recv, refuses. rewrite Hin. cbn [fst snd inbox].
  rewrite (string_take_all _ _ Hlen), (string_drop_all _ _ Hlen), Hdec, Hload.
  cbv zeta. rewrite Hid, Herr. split; reflexivity.
Qed.

Lemma call_single_piece_response_witness :
  let c := fixture_client [Data (json_dumps listing);
                           Data (json_dumps (response_dict 1 PyNone PyNone))] in
  fst (call "RPCServer.ListBreakpoints" [] c)
  = Return (default PyNone
              (assoc "result"
                 [("id", PyInt 0);
                  ("result", PyList [fixture_breakpoint 1 "/tmp/a.go" 10;
                                     fixture_breakpoint 2 "/tmp/a.go" 12]);
                  ("error", PyNone)]))
  /\ inbox (socket (snd (call "RPCServer.ListBreakpoints" [] c)))
     = [Data (json_dumps (response_dict 1 PyNone PyNone))].
Proof.
  cbv zeta.
  apply (call_single_piece_response "RPCServer.ListBreakpoints" []
           (fixture_client [Data (json_dumps listing);
                            Data (json_dumps (response_dict 1 PyNone PyNone))])
           (json_dumps listing)).
  - reflexivity.
  - vm_compute. lia.
  - vm_compute. reflexivity.
  - vm_compute. reflexivity.
  - vm_compute. reflexivity.
  - reflexivity.
Defined.

(** X5: when more than 4096 bytes are readable at once, the call takes
    the first 4096 and leaves the excess at the head of the stream, where
    the next call's read finds it: that call starts in the middle of the
    old response. *)
Theorem call_leaves_excess_to_next_call name params c b rest :
  inbox (socket c) = Data b :: rest ->
  (4096 < String.length b)%nat ->
  let c' := snd (call name params c) in
  inbox (socket c') = Data (string_drop 4096 b) :: rest
  /\ fst (recv 4096 (socket c')) = Return (string_take 4096 (string_drop 4096 b)).
Proof.
  intros Hin Hlen. cbv zeta. rewrite call_eq.
  cbn [fst snd after_call socket inbox].
  pose proof (string_drop_some _ _ Hlen) as Hmore.
  assert (Hunread : unread c = Data (string_drop 4096 b) :: rest).
  { unfold unread, recv. rewrite Hin. cbn [snd inbox].
    destruct (string_drop 4096 b); [congruence|reflexivity]. }
  split; [exact Hunread|].
  unfold recv. cbn [inbox]. rewrite Hunread. reflexivity.
Qed.

Lemma call_leaves_excess_to_next_call_witness :
  let b := json_dumps long_listing in
  let c' := snd (call "RPCServer.ListBreakpoints" [] (fixture_client [Data b])) in
  inbox (socket c') = [Data (string_drop 4096 b)]
  /\ fst (recv 4096 (socket c')) = Return (string_take 4096 (string_drop 4096 b)).
Proof.
  cbv zeta.
  apply (call_leaves_excess_to_next_call "RPCServer.ListBreakpoints" []
           (fixture_client [Data (json_dumps long_listing)]) (json_dumps long_listing) []).
  - reflexivity.
  - vm_compute. lia.
Defined.

(** ** More on sessions *)

(** X6: the session layer neither retries nor hides an error: when the
    first call of an operation raises, the operation raises the same
    exception and leaves the session and the world as the call left them,
    with nothing logged. *)
Theorem operation_propagates_first_error op s e s1 :
  rpc_call (fst (first_call op)) (snd (first_call op)) s = (Raise e, s1) ->
  perform op s = (Raise e, s1).
Proof.
  intros Hcall.
  destruct op as [filename line| |filename line|]; cbn [first_call fst snd] in Hcall;
    unfold perform, add_breakpoint, get_breakpoints, clear_breakpoint, cont; cbv zeta;
    now rewrite (bind_raise _ _ _ _ _ Hcall).
Qed.

Lemma operation_propagates_first_error_witness :
  let s := (DebuggingSession_init "0123456789" fixture_record,
            fixture_world [] [Data (json_dumps (response_dict 0 PyNone (PyStr "boom")))] true) in
  perform (AddBreakpoint "/tmp/a.go" 10) s
  = (Raise (Exception_obj (PyStr "boom")),
     snd (rpc_call "RPCServer.CreateBreakpoint"
            [PyDict [("file", PyStr "/tmp/a.go"); ("line", PyInt 10)]] s)).
Proof.
  cbv zeta.
  apply (operation_propagates_first_error (AddBreakpoint "/tmp/a.go" 10)).
  vm_compute. reflexivity.
Defined.

(** X7: when the debugger accepts the breakpoint, [add_breakpoint] has
    written two requests on the transport of the session, numbered one
    after the other: the creation, whose one parameter is the dictionary
    of the file and the line, and a listing without parameters; and it has
    logged the creation. *)
Theorem add_breakpoint_requests filename line s v s1 :
  let breakpoint := PyDict [("file", PyStr filename); ("line", PyInt line)] in
  rpc_call "RPCServer.CreateBreakpoint" [breakpoint] s = (Return v, s1) ->
  let final := snd (add_breakpoint filename line s) in
  let n := next_request_id s in
  transport_sent final
  = (transport_sent s
     ++ [json_dumps (PyDict [("id", PyInt n);
                             ("params", PyList [PyDict [("file", PyStr filename);
                                                        ("line", PyInt line)]]);
                             ("method", PyStr "RPCServer.CreateBreakpoint")]);
         json_dumps (PyDict [("id", PyInt (n + 1)); ("params", PyList []);
                             ("method", PyStr "RPCServer.ListBreakpoints")])])%list
  /\ trace (snd final) !! length (trace (snd s1))
     = Some (EvLog "created breakpoint: {0}" [LVal breakpoint]).
Proof.
  cbv zeta. intros Hcreate.
  destruct (rpc_call_returns _ _ _ _ _ Hcreate) as ((c1 & Hc1 & Hacc1) & Hsent1 & Hnext1).
  unfold add_breakpoint. cbv zeta.
  rewrite !(bind_return _ _ _ _ _ Hcreate).
  erewrite !bind_return by apply in_world_log.
  set (s1' := (fst s1, _)).
  destruct (rpc_call_writes "RPCServer.ListBreakpoints" [] s1' c1 Hc1 Hacc1)
    as (_ & Hsent2 & _).
  split.
  - rewrite (transport_sent_fst _ (snd (get_breakpoints s1')))
      by apply bind_in_world_session.
    unfold get_breakpoints. rewrite Hsent2.
    rewrite (transport_sent_fst s1' s1), (next_request_id_fst s1' s1) by reflexivity.
    rewrite Hsent1, Hnext1, <- app_assoc. reflexivity.
  - (* the log entry is written before the listing, which only adds events *)
    unfold bind. destruct (get_breakpoints s1') as [[bps|e] s2] eqn:Hlist.
    + rewrite in_world_log. cbn [snd trace set_trace].
      assert (Hgrow : exists more, trace (snd s2) = (trace (snd s1') ++ more)%list).
      { pose proof (rpc_call_connected "RPCServer.ListBreakpoints" [] s1' c1 Hc1) as Heq.
        unfold get_breakpoints in Hlist. rewrite Heq in Hlist.
        injection Hlist as _ <-. exists []. cbn [snd]. now rewrite app_nil_r. }
      destruct Hgrow as [more ->]. subst s1'. cbn [snd trace set_trace].
      rewrite <- !app_assoc. rewrite lookup_app_r by lia.
      now rewrite Nat.sub_diag.
    + pose proof (rpc_call_connected "RPCServer.ListBreakpoints" [] s1' c1 Hc1) as Heq.
      unfold get_breakpoints in Hlist. rewrite Heq in Hlist.
      injection Hlist as _ <-. subst s1'. cbn [snd trace set_trace].
      rewrite lookup_app_r by lia. now rewrite Nat.sub_diag.
Qed.

Lemma add_breakpoint_requests_witness :
  let s := (DebuggingSession_init "0123456789" fixture_record,
            fixture_world [] [Data (json_dumps (response_dict 0 (PyInt 7) PyNone));
                              Data (json_dumps (response_dict 1 (PyList []) PyNone))] true) in
  let breakpoint := PyDict [("file", PyStr "/tmp/a.go"); ("line", PyInt 10)] in
  let final := snd (add_breakpoint "/tmp/a.go" 10 s) in
  transport_sent final
  = (transport_sent s
     ++ [json_dumps (PyDict [("id", PyInt (next_request_id s));
                             ("params", PyList [PyDict [("file", PyStr "/tmp/a.go");
                                                        ("line", PyInt 10)]]);
                             ("method", PyStr "RPCServer.CreateBreakpoint")]);
         json_dumps (PyDict [("id", PyInt (next_request_id s + 1)); ("params", PyList []);
                             ("method", PyStr "RPCServer.ListBreakpoints")])])%list
  /\ trace (snd final)
       !! length (trace (snd (snd (rpc_call "RPCServer.CreateBreakpoint" [breakpoint] s))))
     = Some (EvLog "created breakpoint: {0}" [LVal breakpoint]).
Proof.
  cbv zeta.
  refine (add_breakpoint_requests "/tmp/a.go" 10
            (DebuggingSession_init "0123456789" fixture_record,
             fixture_world [] [Data (json_dumps (response_dict 0 (PyInt 7) PyNone));
                               Data (json_dumps (response_dict 1 (PyList []) PyNone))] true)
            (PyInt 7) _ _).
  vm_compute. reflexivity.
Defined.

(** X8: the listing that [add_breakpoint] makes for its second log line
    can fail it: when the creation is accepted and the listing raises,
    [add_breakpoint] raises that exception, after the breakpoint has been
    created. *)
Theorem add_breakpoint_fails_on_listing filename line s v s1 e :
  let breakpoint := PyDict [("file", PyStr filename); ("line", PyInt line)] in
  rpc_call "RPCServer.CreateBreakpoint" [breakpoint] s = (Return v, s1) ->
  fst (get_breakpoints
         (fst s1, set_trace (trace (snd s1)
                             ++ [EvLog "created breakpoint: {0}" [LVal breakpoint]])%list
                            (snd s1)))
  = Raise e ->
  fst (add_breakpoint filename line s) = Raise e.
Proof.
  cbv zeta. intros Hcreate Hlist. unfold add_breakpoint. cbv zeta.
  rewrite (bind_return _ _ _ _ _ Hcreate).
  erewrite bind_return by apply in_world_log.
  unfold bind. destruct (get_breakpoints _) as [[bps|e'] s2]; cbn [fst] in *;
    [discriminate|congruence].
Qed.

Lemma add_breakpoint_fails_on_listing_witness :
  fst (add_breakpoint "/tmp/a.go" 10
         (DebuggingSession_init "0123456789" fixture_record,
          fixture_world [] [Data (json_dumps (response_dict 0 (PyInt 7) PyNone))] true))
  = Raise ValueError.
Proof.
  refine (add_breakpoint_fails_on_listing "/tmp/a.go" 10
            (DebuggingSession_init "0123456789" fixture_record,
             fixture_world [] [Data (json_dumps (response_dict 0 (PyInt 7) PyNone))] true)
            (PyInt 7) _ ValueError _ _).
  - vm_compute. reflexivity.
  - vm_compute. reflexivity.
Defined.

(** X9: [cont] returns nothing: when the debugger answers the continue
    command, the state it reports goes into the log and the method
    returns [None]; the session and the world are otherwise as the call
    left them. *)
Theorem cont_logs_the_state s state s1 :
  rpc_call "RPCServer.Command" [PyDict [("name", PyStr "continue")]] s = (Return state, s1) ->
  cont s
  = (Return tt,
     (fst s1,
      set_trace (trace (snd s1)
                 ++ [EvLog "breakpoint reached; state: {0}" [LVal state]])%list (snd s1))).
Proof.
  intros Hcall. unfold cont. cbv zeta. rewrite (bind_return _ _ _ _ _ Hcall).
  apply in_world_log.
Qed.

Lemma cont_logs_the_state_witness :
  let s := (DebuggingSession_init "0123456789" fixture_record,
            fixture_world []
              [Data (json_dumps (response_dict 0 (PyDict [("exited", PyBool true)]) PyNone))]
              true) in
  let s1 := snd (rpc_call "RPCServer.Command" [PyDict [("name", PyStr "continue")]] s) in
  cont s
  = (Return tt,
     (fst s1,
      set_trace (trace (snd s1)
                 ++ [EvLog "breakpoint reached; state: {0}"
                           [LVal (PyDict [("exited", PyBool true)])]])%list (snd s1))).
Proof.
  cbv zeta.
  apply (cont_logs_the_state
           (DebuggingSession_init "0123456789" fixture_record,
            fixture_world []
              [Data (json_dumps (response_dict 0 (PyDict [("exited", PyBool true)]) PyNone))]
              true)).
  vm_compute. reflexivity.
Defined.

(** X10: a listing that is not something to iterate over, such as
    [null], makes [clear_breakpoint] raise
    the [TypeError] of its [for] loop; nothing is cleared and nothing is
    logged. *)
Theorem clear_breakpoint_listing_not_iterable filename line s v s1 e :
  get_breakpoints s = (Return v, s1) ->
  py_iter v = Raise e ->
  clear_breakpoint filename line s = (Raise e, s1).
Proof.
  intros Hget Hiter. unfold clear_breakpoint.
  rewrite (bind_return _ _ _ _ _ Hget). unfold bind, lift. now rewrite Hiter.
Qed.

Lemma clear_breakpoint_listing_not_iterable_witness :
  let s := (DebuggingSession_init "0123456789" fixture_record,
            fixture_world [] [Data (json_dumps (response_dict 0 PyNone PyNone))] true) in
  clear_breakpoint "/tmp/a.go" 10 s = (Raise TypeError, snd (get_breakpoints s)).
Proof.
  cbv zeta.
  apply (clear_breakpoint_listing_not_iterable "/tmp/a.go" 10
           (DebuggingSession_init "0123456789" fixture_record,
            fixture_world [] [Data (json_dumps (response_dict 0 PyNone PyNone))] true)
           PyNone).
  - vm_compute. reflexivity.
  - reflexivity.
Defined.

(** ** More on stopping and attaching *)

Lemma stop_absent k w :
  registry w !! k = None ->
  stop k w = (Return tt, set_trace (trace w ++ [EvLog "no session '{0}' found" [LStr k]])%list w).
Proof. intros Hk. unfold stop. run_monad. now rewrite Hk. Qed.

(** What [stop] does in every case. *)
Lemma stop_effect k w :
  fst (stop k w) = Return tt
  /\ sessions_setting (snd (stop k w))
     = match registry w !! k with
       | Some _ => Some (delete k (registry w))
       | None => sessions_setting w
       end
  /\ ActiveSession (snd (stop k w)) = ActiveSession w
  /\ next_fd (snd (stop k w)) = next_fd w
  /\ env (snd (stop k w)) = env w
  /\ (forall r, registry w !! k = Some r ->
        exists before after,
          trace (snd (stop k w)) = (trace w ++ before ++ EvKill (s_pid r) :: after)%list).
Proof.
  destruct (registry w !! k) as [r|] eqn:Hk.
  - unfold stop. run_monad. rewrite Hk. run_monad.
    destruct (os_kill (env w) (clock w) (s_pid r)) as [[]|x] eqn:Hkill; cbn [fst snd];
      [destruct (os_waitpid (env w) (S (clock w)) (s_pid r)) as [[]|y] eqn:Hwait|];
      cbn; rewrite ?Hkill, ?Hwait; cbn;
      (repeat (split; [reflexivity|])); intros r' [= <-];
      rewrite <- !app_assoc; cbn [app];
      exists [EvLog "stopping session: {0}" [LRecord r]; EvSettingsSet (delete k (registry w))];
      eexists; reflexivity.
  - rewrite (stop_absent _ _ Hk). cbn. repeat (split; [reflexivity|]). discriminate.
Qed.

Lemma registry_after_stop k w : registry (snd (stop k w)) = delete k (registry w).
Proof.
  destruct (stop_effect k w) as (_ & Hset & _). unfold registry at 1. rewrite Hset.
  destruct (registry w !! k) eqn:Hk; [reflexivity|].
  fold (registry w). now rewrite delete_id.
Qed.

(** X11: [stop] never raises, whatever the key and whatever becomes of the
    kill; afterwards the registry is the old one without the key, every
    other session being as it was; and [stop] does not touch the active
    session, which still is the stopped one when that was the active one. *)
Theorem stop_never_raises_nor_detaches k w :
  fst (stop k w) = Return tt
  /\ registry (snd (stop k w)) = delete k (registry w)
  /\ (forall k', k' <> k -> registry (snd (stop k w)) !! k' = registry w !! k')
  /\ ActiveSession (snd (stop k w)) = ActiveSession w.
Proof.
  destruct (stop_effect k w) as (Hret & _ & Hactive & _).
  rewrite registry_after_stop. repeat split; try assumption.
  intros k' Hne. now apply lookup_delete_ne.
Qed.

Lemma stop_never_raises_nor_detaches_witness :
  let w := set_ActiveSession (Some (DebuggingSession_init "0123456789" fixture_record))
             (set_sessions_setting
                (Some (<["feedfacade" := fixture_record]> {["0123456789" := fixture_record]}))
                (fixture_world [] [] false)) in
  registry (snd (stop "0123456789" w)) !! "feedfacade" = registry w !! "feedfacade"
  /\ ActiveSession (snd (stop "0123456789" w)) = ActiveSession w.
Proof.
  cbv zeta.
  pose proof (stop_never_raises_nor_detaches "0123456789"
                (set_ActiveSession (Some (DebuggingSession_init "0123456789" fixture_record))
                   (set_sessions_setting
                      (Some (<["feedfacade" := fixture_record]>
                               {["0123456789" := fixture_record]}))
                      (fixture_world [] [] false)))) as (_ & _ & Hothers & Hactive).
  split; [apply Hothers; discriminate|exact Hactive].
Defined.

(** X12: stopping a session a second time finds it gone: the second
    [stop] writes its log line and nothing else, and sends no signal. *)
Theorem stop_twice_only_logs k w :
  let w1 := snd (stop k w) in
  stop k w1
  = (Return tt, set_trace (trace w1 ++ [EvLog "no session '{0}' found" [LStr k]])%list w1).
Proof.
  cbv zeta. apply stop_absent. rewrite registry_after_stop. apply lookup_delete_eq.
Qed.

(** X13: [stop_active_session] never raises and always leaves no session
    active; the session that was active is out of the registry, and with
    no session active the registry is not written. *)
Theorem stop_active_session_detaches w :
  let w' := snd (stop_active_session w) in
  fst (stop_active_session w) = Return tt
  /\ ActiveSession w' = None
  /\ registry w'
     = match ActiveSession w with
       | Some self => delete (session_key self) (registry w)
       | None => registry w
       end.
Proof.
  cbv zeta. unfold stop_active_session, bind, gets, try_except, modify. cbn [fst snd].
  destruct (ActiveSession w) as [self|] eqn:Hactive.
  - pose proof (stop_effect (session_key self) w) as (Hret & _).
    pose proof (registry_after_stop (session_key self) w) as Hreg.
    destruct (stop (session_key self) w) as [[[]|e] w1]; cbn [fst snd] in *;
      [|discriminate].
    repeat split. exact Hreg.
  - run_monad. rewrite Hactive. repeat split.
Qed.

(** X14: [attach] to a session of the registry makes a new session object
    the active one, with the process id, host, port and address of the
    record and no transport yet, whatever was active before; [attach] to
    an unknown key writes a log line and keeps the active session.  In
    both cases it returns normally and the registry is as it was. *)
Theorem attach_replaces_active_session k w :
  let w' := snd (attach k w) in
  fst (attach k w) = Return tt
  /\ sessions_setting w' = sessions_setting w
  /\ match registry w !! k with
     | Some r =>
         ActiveSession w'
         = Some {| _rpc := None; session_key := k; pid := s_pid r; host := s_host r;
                   port := s_port r; addr := s_addr r |}
         /\ trace w' = (trace w ++ [EvLog "debugger attached to session: {0}" [LRecord r]])%list
     | None =>
         ActiveSession w' = ActiveSession w
         /\ trace w' = (trace w ++ [EvLog "no session '{0}' found" [LStr k]])%list
     end.
Proof.
  cbv zeta. unfold attach. run_monad.
  destruct (registry w !! k) as [r|]; run_monad; repeat split.
Qed.

(** ** More on launching *)

(** What a launch leaves behind when the program exists and the debugger
    is spawned. *)
Lemma launch_eq program key desc w child :
  os_path_isfile (env w) (clock w) program = true ->
  run_nonblock (env w) (S (launch_port_time key w)) "dlv" (launch_args program key w)
  = Return child ->
  let k := launch_key key w in
  let r := launch_record program key desc w child in
  let sessions := <[k := r]> (registry w) in
  launch program key desc w
  = (Return tt,
     {| env := env w;
        clock := S (S (launch_port_time key w));
        next_fd := next_fd w;
        sessions_setting := Some sessions;
        ActiveSession := Some (DebuggingSession_init k r);
        trace := (trace w
                  ++ [EvPortProbe (s_port r);
                      EvSpawn "dlv" (launch_args program key w) child;
                      EvSettingsSet sessions;
                      EvLog "created new debugger session. current sessions: {0}"
                            [LSessions sessions];
                      EvLog "debugger attached to session: {0}" [LRecord r]])%list |}).
Proof.
  intros Hfile Hspawn. cbv zeta.
  unfold launch, launch_record, launch_key, launch_args, launch_port_time in *.
  unfold ToolRunner_run_nonblock, fresh_key, attach, registry. run_monad.
  rewrite Hfile. cbn [negb].
  destruct (key_missing key); run_monad; rewrite Hspawn; run_monad;
    unfold registry; run_monad; cbn [from_option Datatypes.id];
    rewrite lookup_insert_eq; run_monad; rewrite <- !app_assoc; reflexivity.
Qed.

(** X15: a launch of a program that exists, with the debugger spawned,
    returns normally; the registry has, under the key given or else the
    first ten digits of a fresh identifier, the record of the program, the
    process id of the child, the host, the port that was probed, the
    address made of the two and the description, an earlier record under
    that key being replaced and every other key kept; and the active
    session is a new session on that record, without a transport. *)
Theorem launch_registers_and_attaches program key desc w child :
  os_path_isfile (env w) (clock w) program = true ->
  run_nonblock (env w) (S (launch_port_time key w)) "dlv" (launch_args program key w)
  = Return child ->
  let w' := snd (launch program key desc w) in
  let k := launch_key key w in
  let port := ephemeral_port (env w) (launch_port_time key w) in
  let r := {| s_program := program; s_pid := child; s_host := "localhost";
              s_port := port; s_addr := "localhost:" ++ pretty port; s_desc := desc |} in
  fst (launch program key desc w) = Return tt
  /\ registry w' !! k = Some r
  /\ (forall k', k' <> k -> registry w' !! k' = registry w !! k')
  /\ ActiveSession w'
     = Some {| _rpc := None; session_key := k; pid := child; host := "localhost";
               port := port; addr := "localhost:" ++ pretty port |}
  /\ launch_args program key w
     = ["--headless=true"; "--listen=localhost:" ++ pretty port; "exec"; program].
Proof.
  intros Hfile Hspawn. cbv zeta. rewrite (launch_eq _ _ _ _ _ Hfile Hspawn).
  cbn [fst snd]. unfold registry at 1 2. cbn [sessions_setting default from_option id].
  split; [reflexivity|]. split; [apply lookup_insert_eq|].
  split; [intros k' Hne; now apply lookup_insert_ne|]. split; reflexivity.
Qed.

Lemma launch_registers_and_attaches_witness :
  let w := fixture_world ["/tmp/prog"] [] true in
  let w' := snd (launch "/tmp/prog" (Some "cafe") "TestFoo" w) in
  let r := {| s_program := "/tmp/prog"; s_pid := 4242; s_host := "localhost";
              s_port := 52001; s_addr := "localhost:" ++ pretty 52001; s_desc := "TestFoo" |} in
  fst (launch "/tmp/prog" (Some "cafe") "TestFoo" w) = Return tt
  /\ registry w' !! "cafe" = Some r
  /\ (forall k', k' <> "cafe" -> registry w' !! k' = registry w !! k')
  /\ ActiveSession w'
     = Some {| _rpc := None; session_key := "cafe"; pid := 4242; host := "localhost";
               port := 52001; addr := "localhost:" ++ pretty 52001 |}
  /\ launch_args "/tmp/prog" (Some "cafe") w
     = ["--headless=true"; "--listen=localhost:" ++ pretty 52001; "exec"; "/tmp/prog"].
Proof.
  cbv zeta.
  apply (launch_registers_and_attaches "/tmp/prog" (Some "cafe") "TestFoo"
           (fixture_world ["/tmp/prog"] [] true) 4242).
  - reflexivity.
  - reflexivity.
Defined.

(** X16: when the debugger cannot be spawned, [launch] raises the
    exception of the spawn; the port has been probed, but nothing is
    written into the registry and the active session is as it was. *)
Theorem launch_spawn_failure program key desc w e :
  os_path_isfile (env w) (clock w) program = true ->
  run_nonblock (env w) (S (launch_port_time key w)) "dlv" (launch_args program key w)
  = Raise e ->
  let w' := snd (launch program key desc w) in
  fst (launch program key desc w) = Raise e
  /\ sessions_setting w' = sessions_setting w
  /\ ActiveSession w' = ActiveSession w
  /\ trace w'
     = (trace w ++ [EvPortProbe (ephemeral_port (env w) (launch_port_time key w))])%list.
Proof.
  intros Hfile Hspawn. cbv zeta.
  unfold launch, launch_key, launch_args, launch_port_time in *.
  unfold ToolRunner_run_nonblock, fresh_key. run_monad. rewrite Hfile. cbn [negb].
  destruct (key_missing key); run_monad; rewrite Hspawn; run_monad; repeat split.
Qed.

Lemma launch_spawn_failure_witness :
  let w := {| env := {| os_path_isfile := fun _ _ => true;
                        uuid4_hex := fun _ => "0123456789abcdef0123456789abcdef";
                        ephemeral_port := fun _ => 52000;
                        run_nonblock := fun _ _ _ => Raise (OSError "FileNotFoundError");
                        os_kill := fun _ _ => Return tt;
                        os_waitpid := fun _ _ => Return tt;
                        create_connection := fun _ _ _ => Return [] |};
              clock := 0; next_fd := 0; sessions_setting := None;
              ActiveSession := None; trace := [] |} in
  let w' := snd (launch "/tmp/prog" None "Default" w) in
  fst (launch "/tmp/prog" None "Default" w) = Raise (OSError "FileNotFoundError")
  /\ sessions_setting w' = sessions_setting w
  /\ ActiveSession w' = ActiveSession w
  /\ trace w' = (trace w ++ [EvPortProbe 52000])%list.
Proof.
  cbv zeta.
  refine (launch_spawn_failure "/tmp/prog" None "Default" _ (OSError "FileNotFoundError") _ _).
  - reflexivity.
  - reflexivity.
Defined.

(** X17: a launch under a key that the registry does not have, followed
    by [stop_active_session], leaves the registry as it was before the
    launch and no session active, and the signal has gone to the child
    that the launch spawned. *)
Theorem launch_then_stop_active_session program key desc w child :
  os_path_isfile (env w) (clock w) program = true ->
  run_nonblock (env w) (S (launch_port_time key w)) "dlv" (launch_args program key w)
  = Return child ->
  registry w !! launch_key key w = None ->
  let w1 := snd (launch program key desc w) in
  let w2 := snd (stop_active_session w1) in
  fst (stop_active_session w1) = Return tt
  /\ registry w2 = registry w
  /\ ActiveSession w2 = None
  /\ exists before after,
       trace w2 = (trace w1 ++ before ++ EvKill child :: after)%list.
Proof.
  intros Hfile Hspawn Hfresh. cbv zeta.
  rewrite (launch_eq _ _ _ _ _ Hfile Hspawn). cbn [snd].
  set (k := launch_key key w) in *.
  set (r := launch_record program key desc w child).
  set (w1 := {| env := env w |}).
  assert (Hreg1 : registry w1 = <[k := r]> (registry w)) by reflexivity.
  assert (Hk1 : registry w1 !! k = Some r) by (rewrite Hreg1; apply lookup_insert_eq).
  unfold stop_active_session, bind, gets, try_except, modify. cbn [fst snd].
  change (ActiveSession w1) with (Some (DebuggingSession_init k r)).
  cbn [session_key DebuggingSession_init].
  pose proof (stop_effect k w1) as (Hret & _ & _ & _ & _ & Htrace).
  pose proof (registry_after_stop k w1) as Hreg2.
  destruct (Htrace r Hk1) as (before & after & Hkill).
  destruct (stop k w1) as [[[]|e] w2]; cbn [fst snd] in *; [|discriminate].
  split; [reflexivity|]. split; [|split; [reflexivity|]].
  - unfold registry at 1. cbn [sessions_setting set_ActiveSession].
    fold (registry w2). rewrite Hreg2, Hreg1. now apply delete_insert_id.
  - exists before, after. exact Hkill.
Qed.

Lemma launch_then_stop_active_session_witness :
  let w := fixture_world ["/tmp/prog"] [] false in
  let w1 := snd (launch "/tmp/prog" None "TestFoo" w) in
  let w2 := snd (stop_active_session w1) in
  fst (stop_active_session w1) = Return tt
  /\ registry w2 = registry w
  /\ ActiveSession w2 = None
  /\ exists before after,
       trace w2 = (trace w1 ++ before ++ EvKill 4242 :: after)%list.
Proof.
  cbv zeta.
  apply (launch_then_stop_active_session "/tmp/prog" None "TestFoo"
           (fixture_world ["/tmp/prog"] [] false) 4242).
  - reflexivity.
  - reflexivity.
  - vm_compute. reflexivity.
Defined.

(** ** The commands of the window *)

Lemma on_ActiveSession_keeps_transport {A} method (m : M Session A) w self :
  preserves m ->
  ActiveSession w = Some self ->
  exists self',
    ActiveSession (snd (on_ActiveSession method m w)) = Some self'
    /\ keeps_transport (self, w) (self', snd (on_ActiveSession method m w)).
Proof.
  intros Hm Hactive. unfold on_ActiveSession. rewrite Hactive.
  specialize (Hm (self, w)). destruct (m (self, w)) as [r [self' w']]. cbn [fst snd] in *.
  exists self'. split; [reflexivity|].
  unfold keeps_transport, transport_fd, connections in *. cbn [fst snd next_fd set_ActiveSession] in *.
  exact Hm.
Qed.

(** X18: with no session active, the breakpoint and continue commands
    raise [AttributeError], the active session being [None], and do
    nothing else. *)
Theorem commands_need_an_active_session ed w :
  ActiveSession w = None ->
  Command.add_breakpoint ed w = (Raise (AttributeError "add_breakpoint"), w)
  /\ Command.clear_breakpoint ed w = (Raise (AttributeError "clear_breakpoint"), w)
  /\ Command.cont w = (Raise (AttributeError "cont"), w).
Proof.
  intros Hnone.
  unfold Command.add_breakpoint, Command.clear_breakpoint, Command.cont, on_ActiveSession.
  destruct (location_at_cursor ed) as [filename row]. now rewrite Hnone.
Qed.

Lemma commands_need_an_active_session_witness :
  let ed := {| is_go_source := true; func_name_at_cursor := "TestFoo";
               location_at_cursor := ("/tmp/a.go", 10); expanduser_home := "/home/dev" |} in
  let w := fixture_world [] [] true in
  Command.add_breakpoint ed w = (Raise (AttributeError "add_breakpoint"), w)
  /\ Command.clear_breakpoint ed w = (Raise (AttributeError "clear_breakpoint"), w)
  /\ Command.cont w = (Raise (AttributeError "cont"), w).
Proof.
  cbv zeta.
  apply (commands_need_an_active_session
           {| is_go_source := true; func_name_at_cursor := "TestFoo";
              location_at_cursor := ("/tmp/a.go", 10); expanduser_home := "/home/dev" |}
           (fixture_world [] [] true)).
  reflexivity.
Defined.

(** X19: a command leaves a session active, and that session has kept its
    transport: the one it had, with no new connection; or, if it had
    none, the one connection the command has made, or still none.  So the
    connection that one command opens is the one the next command uses. *)
Theorem commands_keep_the_transport ed w self :
  ActiveSession w = Some self ->
  (exists self',
     ActiveSession (snd (Command.add_breakpoint ed w)) = Some self'
     /\ keeps_transport (self, w) (self', snd (Command.add_breakpoint ed w)))
  /\ (exists self',
        ActiveSession (snd (Command.clear_breakpoint ed w)) = Some self'
        /\ keeps_transport (self, w) (self', snd (Command.clear_breakpoint ed w)))
  /\ (exists self',
        ActiveSession (snd (Command.cont w)) = Some self'
        /\ keeps_transport (self, w) (self', snd (Command.cont w))).
Proof.
  intros Hactive.
  unfold Command.add_breakpoint, Command.clear_breakpoint, Command.cont.
  destruct (location_at_cursor ed) as [filename row].
  split; [|split]; apply on_ActiveSession_keeps_transport; try assumption.
  - apply (preserves_perform (AddBreakpoint filename row)).
  - apply (preserves_perform (ClearBreakpoint filename row)).
  - apply (preserves_perform Cont).
Qed.

Lemma commands_keep_the_transport_witness :
  let ed := {| is_go_source := true; func_name_at_cursor := "TestFoo";
               location_at_cursor := ("/tmp/a.go", 12); expanduser_home := "/home/dev" |} in
  let self := DebuggingSession_init "0123456789" fixture_record in
  let w := set_ActiveSession (Some self) (fixture_world [] session_script true) in
  (exists self',
     ActiveSession (snd (Command.add_breakpoint ed w)) = Some self'
     /\ keeps_transport (self, w) (self', snd (Command.add_breakpoint ed w)))
  /\ (exists self',
        ActiveSession (snd (Command.clear_breakpoint ed w)) = Some self'
        /\ keeps_transport (self, w) (self', snd (Command.clear_breakpoint ed w)))
  /\ (exists self',
        ActiveSession (snd (Command.cont w)) = Some self'
        /\ keeps_transport (self, w) (self', snd (Command.cont w))).
Proof.
  cbv zeta.
  apply (commands_keep_the_transport
           {| is_go_source := true; func_name_at_cursor := "TestFoo";
              location_at_cursor := ("/tmp/a.go", 12); expanduser_home := "/home/dev" |}
           (set_ActiveSession (Some (DebuggingSession_init "0123456789" fixture_record))
              (fixture_world [] session_script true))).
  reflexivity.
Defined.

(** Two commands in a row on the session of the witness: the listing of
    the first makes the connection, the second writes on it. *)
Example commands_share_the_connection :
  let ed := {| is_go_source := true; func_name_at_cursor := "TestFoo";
               location_at_cursor := ("/tmp/a.go", 12); expanduser_home := "/home/dev" |} in
  let w := set_ActiveSession (Some (DebuggingSession_init "0123456789" fixture_record))
             (fixture_world [] [Data (json_dumps (response_dict 0 (PyDict []) PyNone));
                                Data (json_dumps listing)] true) in
  let w2 := snd (Command.clear_breakpoint ed (snd (Command.cont w))) in
  next_fd w2 = 1%nat
  /\ (transport_sent <$> ((fun self => (self, w2)) <$> ActiveSession w2))
     = Some [json_dumps (request_dict 0 "RPCServer.Command"
                           [PyDict [("name", PyStr "continue")]]);
             json_dumps (request_dict 1 "RPCServer.ListBreakpoints" [])].
Proof. cbv zeta. split; vm_compute; reflexivity. Qed.

(** *** Dispatch and the debug run *)

(** X20: the [stop] command needs the key of the session among its
    arguments: without a ["session"] argument [run] raises [KeyError] and
    stops nothing. *)
Theorem run_stop_requires_session ed args p :
  args !! "session" = None ->
  Command.run ed (Some "stop") args p = (Raise (KeyError "session"), p).
Proof. intros Hargs. unfold Command.run. cbn. now rewrite Hargs. Qed.

Lemma run_stop_requires_session_witness :
  let ed := {| is_go_source := true; func_name_at_cursor := "TestFoo";
               location_at_cursor := ("/tmp/a.go", 12); expanduser_home := "/home/dev" |} in
  let p := {| world := set_sessions_setting (Some {["0123456789" := fixture_record]})
                         (fixture_world [] [] true);
              Callbacks := ∅; window_commands := [] |} in
  Command.run ed (Some "stop") ∅ p = (Raise (KeyError "session"), p).
Proof.
  cbv zeta.
  apply (run_stop_requires_session
           {| is_go_source := true; func_name_at_cursor := "TestFoo";
              location_at_cursor := ("/tmp/a.go", 12); expanduser_home := "/home/dev" |} ∅).
  reflexivity.
Defined.

(** X21: [run] without a command, or with one that is none of the six it
    knows, returns normally and writes one log line; the registry, the
    active session, the callbacks and the commands handed to the window
    are as they were. *)
Theorem run_ignores_what_it_does_not_know ed command args p :
  match command with
  | Some c => ~ In c known_commands
  | None => True
  end ->
  Command.run ed command args p
  = (Return tt,
     {| world :=
          set_trace
            (trace (world p)
             ++ [if key_missing command then EvLog "command is required" []
                 else EvLog "unrecognized command: {0}"
                            [LStr (default EmptyString command)]])%list
            (world p);
        Callbacks := Callbacks p;
        window_commands := window_commands p |}).
Proof.
  intros Hunknown. unfold Command.run.
  destruct (key_missing command) eqn:Hmissing; [reflexivity|].
  destruct command as [c|]; [|discriminate]. cbn [default from_option Datatypes.id].
  unfold known_commands in Hunknown. cbn [In] in Hunknown.
  repeat match goal with
         | |- context [String.eqb c ?known] =>
             destruct (String.eqb_spec c known) as [->|_]; [exfalso; apply Hunknown; auto 10|]
         end.
  reflexivity.
Qed.

Lemma run_ignores_what_it_does_not_know_witness :
  let ed := {| is_go_source := true; func_name_at_cursor := "TestFoo";
               location_at_cursor := ("/tmp/a.go", 12); expanduser_home := "/home/dev" |} in
  let p := {| world := fixture_world [] [] true; Callbacks := ∅; window_commands := [] |} in
  Command.run ed (Some "step") ∅ p
  = (Return tt,
     {| world := set_trace [EvLog "unrecognized command: {0}" [LStr "step"]] (world p);
        Callbacks := ∅; window_commands := [] |}).
Proof.
  cbv zeta.
  apply (run_ignores_what_it_does_not_know
           {| is_go_source := true; func_name_at_cursor := "TestFoo";
              location_at_cursor := ("/tmp/a.go", 12); expanduser_home := "/home/dev" |}
           (Some "step") ∅
           {| world := fixture_world [] [] true; Callbacks := ∅; window_commands := [] |}).
  vm_compute. intuition discriminate.
Defined.

(** X22: [debug_test_at_cursor] starts nothing when the view is not a Go
    source or when no function is found at the cursor: no callback is
    registered and no build is asked for; in the second case one log line
    is written, in the first nothing changes at all. *)
Theorem debug_test_at_cursor_needs_a_function ed p :
  is_go_source ed = false \/ func_name_at_cursor ed = EmptyString ->
  let p' := snd (Command.debug_test_at_cursor ed p) in
  fst (Command.debug_test_at_cursor ed p) = Return tt
  /\ Callbacks p' = Callbacks p
  /\ window_commands p' = window_commands p
  /\ world p'
     = (if is_go_source ed
        then set_trace (trace (world p) ++ [EvLog "no function found near cursor" []])%list
                       (world p)
        else world p).
Proof.
  intros Hskip. cbv zeta. unfold Command.debug_test_at_cursor.
  destruct (is_go_source ed); cbn [negb].
  - destruct Hskip as [Hgo|Hname]; [discriminate|]. rewrite Hname. cbn. repeat split.
  - cbn. repeat split.
Qed.

Lemma debug_test_at_cursor_needs_a_function_witness :
  let ed := {| is_go_source := true; func_name_at_cursor := EmptyString;
               location_at_cursor := ("/tmp/a.go", 12); expanduser_home := "/home/dev" |} in
  let p := {| world := fixture_world [] [] true; Callbacks := ∅; window_commands := [] |} in
  let p' := snd (Command.debug_test_at_cursor ed p) in
  fst (Command.debug_test_at_cursor ed p) = Return tt
  /\ Callbacks p' = Callbacks p
  /\ window_commands p' = window_commands p
  /\ world p'
     = set_trace (trace (world p) ++ [EvLog "no function found near cursor" []])%list (world p).
Proof.
  cbv zeta.
  apply (debug_test_at_cursor_needs_a_function
           {| is_go_source := true; func_name_at_cursor := EmptyString;
              location_at_cursor := ("/tmp/a.go", 12); expanduser_home := "/home/dev" |}
           {| world := fixture_world [] [] true; Callbacks := ∅; window_commands := [] |}).
  right. reflexivity.
Defined.

Lemma length_zero_empty s : (String.length s =? 0)%nat = true <-> s = EmptyString.
Proof. destruct s; cbn; split; congruence. Qed.

(** X23: on a Go source with a function at the cursor,
    [debug_test_at_cursor] takes the first ten digits of a fresh
    identifier as the key of the session to come, registers under that
    key the callback that launches the program
    [~/.gotools-debug-<key>] with that key and the name of the function
    as description, and hands the build command that program as the
    binary to build and that key as the build id.  No session is
    registered yet. *)
Theorem debug_test_at_cursor_registers_callback ed p :
  is_go_source ed = true ->
  func_name_at_cursor ed <> EmptyString ->
  let p' := snd (Command.debug_test_at_cursor ed p) in
  let key := string_take 10 (uuid4_hex (env (world p)) (clock (world p))) in
  let program := os_path_join (expanduser_home ed) (".gotools-debug-" ++ key) in
  fst (Command.debug_test_at_cursor ed p) = Return tt
  /\ Callbacks p' !! key
     = Some {| cb_program := program; cb_key := key; cb_desc := func_name_at_cursor ed |}
  /\ (forall k, k <> key -> Callbacks p' !! k = Callbacks p !! k)
  /\ window_commands p'
     = (window_commands p
        ++ [RunCommand "gotools_build" [("task", "test_at_cursor");
                                        ("build_test_binary", program);
                                        ("build_id", key)]])%list
  /\ sessions_setting (world p') = sessions_setting (world p)
  /\ ActiveSession (world p') = ActiveSession (world p).
Proof.
  intros Hgo Hname. cbv zeta. unfold Command.debug_test_at_cursor.
  rewrite Hgo. cbn [negb].
  destruct (String.length (func_name_at_cursor ed) =? 0)%nat eqn:Hlen.
  { apply length_zero_empty in Hlen. contradiction. }
  unfold in_plugin, fresh_key. run_monad. cbn.
  split; [reflexivity|]. split; [apply lookup_insert_eq|].
  split; [intros k Hne; now apply lookup_insert_ne|]. repeat split.
Qed.

Lemma debug_test_at_cursor_registers_callback_witness :
  let ed := {| is_go_source := true; func_name_at_cursor := "TestFoo";
               location_at_cursor := ("/tmp/a.go", 12); expanduser_home := "/home/dev" |} in
  let p := {| world := fixture_world [] [] true; Callbacks := ∅; window_commands := [] |} in
  let p' := snd (Command.debug_test_at_cursor ed p) in
  let key := string_take 10 (uuid4_hex (env (world p)) (clock (world p))) in
  let program := os_path_join (expanduser_home ed) (".gotools-debug-" ++ key) in
  fst (Command.debug_test_at_cursor ed p) = Return tt
  /\ Callbacks p' !! key
     = Some {| cb_program := program; cb_key := key; cb_desc := func_name_at_cursor ed |}
  /\ (forall k, k <> key -> Callbacks p' !! k = Callbacks p !! k)
  /\ window_commands p'
     = (window_commands p
        ++ [RunCommand "gotools_build" [("task", "test_at_cursor");
                                        ("build_test_binary", program);
                                        ("build_id", key)]])%list
  /\ sessions_setting (world p') = sessions_setting (world p)
  /\ ActiveSession (world p') = ActiveSession (world p).
Proof.
  cbv zeta.
  apply (debug_test_at_cursor_registers_callback
           {| is_go_source := true; func_name_at_cursor := "TestFoo";
              location_at_cursor := ("/tmp/a.go", 12); expanduser_home := "/home/dev" |}
           {| world := fixture_world [] [] true; Callbacks := ∅; window_commands := [] |}).
  - reflexivity.
  - discriminate.
Defined.

(** The build command and the program of the witness. *)
Example debug_test_at_cursor_build :
  let ed := {| is_go_source := true; func_name_at_cursor := "TestFoo";
               location_at_cursor := ("/tmp/a.go", 12); expanduser_home := "/home/dev" |} in
  let p := {| world := fixture_world [] [] true; Callbacks := ∅; window_commands := [] |} in
  window_commands (snd (Command.debug_test_at_cursor ed p))
  = [RunCommand "gotools_build"
       [("task", "test_at_cursor");
        ("build_test_binary", "/home/dev/.gotools-debug-0123456789");
        ("build_id", "0123456789")]].
Proof. vm_compute. reflexivity. Qed.


Lemma debug_test_at_cursor_callback ed p :
  is_go_source ed = true ->
  func_name_at_cursor ed <> EmptyString ->
  let key := string_take 10 (uuid4_hex (env (world p)) (clock (world p))) in
  Callbacks (snd (Command.debug_test_at_cursor ed p)) !! key
  = Some {| cb_program := os_path_join (expanduser_home ed) (".gotools-debug-" ++ key);
            cb_key := key; cb_desc := func_name_at_cursor ed |}.
Proof.
  intros Hgo Hname. cbv zeta. unfold Command.debug_test_at_cursor.
  rewrite Hgo. cbn [negb].
  destruct (String.length (func_name_at_cursor ed) =? 0)%nat eqn:Hlen.
  { apply length_zero_empty in Hlen. contradiction. }
  unfold in_plugin, fresh_key. run_monad. cbn. apply lookup_insert_eq.
Qed.

(** X24: when the callback of a debug run is called, the program is there
    and the debugger is spawned, the session is registered under the key
    that the build was given as its id, with the program that was built
    and the name of the function as description, and it is the active
    session. *)
Theorem debug_run_ends_in_a_session ed p w child :
  is_go_source ed = true ->
  func_name_at_cursor ed <> EmptyString ->
  let key := string_take 10 (uuid4_hex (env (world p)) (clock (world p))) in
  let program := os_path_join (expanduser_home ed) (".gotools-debug-" ++ key) in
  key <> EmptyString ->
  os_path_isfile (env w) (clock w) program = true ->
  run_nonblock (env w) (S (launch_port_time (Some key) w)) "dlv"
               (launch_args program (Some key) w)
  = Return child ->
  exists cb,
    Callbacks (snd (Command.debug_test_at_cursor ed p)) !! key = Some cb
    /\ fst (invoke cb w) = Return tt
    /\ (exists r, registry (snd (invoke cb w)) !! key = Some r
                  /\ s_program r = program
                  /\ s_desc r = func_name_at_cursor ed
                  /\ s_pid r = child)
    /\ (session_key <$> ActiveSession (snd (invoke cb w))) = Some key.
Proof.
  cbv zeta. intros Hgo Hname Hkey Hfile Hspawn.
  eexists. split; [apply (debug_test_at_cursor_callback ed p Hgo Hname)|].
  unfold invoke. cbn [cb_program cb_key cb_desc].
  rewrite (launch_eq _ _ _ _ _ Hfile Hspawn). cbn [fst snd].
  assert (Hk : launch_key (Some (string_take 10 (uuid4_hex (env (world p)) (clock (world p))))) w
               = string_take 10 (uuid4_hex (env (world p)) (clock (world p)))).
  { unfold launch_key, key_missing.
    destruct (String.eqb_spec (string_take 10 (uuid4_hex (env (world p)) (clock (world p))))
                EmptyString) as [Heq|_]; [contradiction|reflexivity]. }
  rewrite Hk. split; [reflexivity|]. split.
  - eexists. unfold registry. cbn [sessions_setting from_option Datatypes.id].
    split; [apply lookup_insert_eq|]. repeat split.
  - reflexivity.
Qed.

Lemma debug_run_ends_in_a_session_witness :
  let ed := {| is_go_source := true; func_name_at_cursor := "TestFoo";
               location_at_cursor := ("/tmp/a.go", 12); expanduser_home := "/home/dev" |} in
  let p := {| world := fixture_world [] [] true; Callbacks := ∅; window_commands := [] |} in
  let w := fixture_world ["/home/dev/.gotools-debug-0123456789"] [] true in
  let key := string_take 10 (uuid4_hex (env (world p)) (clock (world p))) in
  let program := os_path_join (expanduser_home ed) (".gotools-debug-" ++ key) in
  exists cb,
    Callbacks (snd (Command.debug_test_at_cursor ed p)) !! key = Some cb
    /\ fst (invoke cb w) = Return tt
    /\ (exists r, registry (snd (invoke cb w)) !! key = Some r
                  /\ s_program r = program
                  /\ s_desc r = func_name_at_cursor ed
                  /\ s_pid r = 4242)
    /\ (session_key <$> ActiveSession (snd (invoke cb w))) = Some key.
Proof.
  cbv zeta.
  apply (debug_run_ends_in_a_session
           {| is_go_source := true; func_name_at_cursor := "TestFoo";
              location_at_cursor := ("/tmp/a.go", 12); expanduser_home := "/home/dev" |}
           {| world := fixture_world [] [] true; Callbacks := ∅; window_commands := [] |}
           (fixture_world ["/home/dev/.gotools-debug-0123456789"] [] true) 4242).
  - reflexivity.
  - discriminate.
  - vm_compute. discriminate.
  - vm_compute. reflexivity.
  - reflexivity.
Defined.

(** ** Malformed listings *)

Lemma scan_breakpoints_app filename line pre rest :
  forallb is_breakpoint pre = true ->
  find (at_location filename line) pre = None ->
  scan_breakpoints filename line (pre ++ rest) = scan_breakpoints filename line rest.
Proof.
  induction pre as [|bp pre IH]; [reflexivity|].
  cbn [forallb find app scan_breakpoints]. intros [Hbp Hpre]%andb_prop.
  unfold is_breakpoint in Hbp. unfold at_location.
  destruct (py_getitem bp "id"); [|discriminate].
  destruct (py_getitem bp "file") as [f|]; [|discriminate].
  destruct (py_getitem bp "line") as [l|]; [|discriminate].
  destruct (py_eq_str f filename); cbn [andb]; [|now apply IH].
  destruct (py_eq_int l line); [discriminate|now apply IH].
Qed.

(** X25: the scan of [clear_breakpoint] reads the file of every entry up
    to the first match: an entry without a ["file"] key that comes before
    any match makes [clear_breakpoint] raise [KeyError], whatever follows
    it in the listing, and nothing is cleared. *)
Theorem clear_breakpoint_entry_without_file filename line s pre kvs rest s1 :
  get_breakpoints s = (Return (PyList (pre ++ PyDict kvs :: rest)), s1) ->
  forallb is_breakpoint pre = true ->
  find (at_location filename line) pre = None ->
  assoc "file" kvs = None ->
  clear_breakpoint filename line s = (Raise (KeyError "file"), s1).
Proof.
  intros Hget Hpre Hnone Hfile. unfold clear_breakpoint.
  rewrite (bind_return _ _ _ _ _ Hget). cbn [py_iter]. rewrite bind_lift_return.
  rewrite (scan_breakpoints_app _ _ _ _ Hpre Hnone).
  cbn [scan_breakpoints py_getitem]. rewrite Hfile. reflexivity.
Qed.

Lemma clear_breakpoint_entry_without_file_witness :
  let s := (DebuggingSession_init "0123456789" fixture_record,
            fixture_world []
              [Data (json_dumps
                       (response_dict 0
                          (PyList [fixture_breakpoint 1 "/tmp/a.go" 10;
                                   PyDict [("id", PyInt 2); ("line", PyInt 12)];
                                   fixture_breakpoint 3 "/tmp/a.go" 12])
                          PyNone))] true) in
  clear_breakpoint "/tmp/a.go" 12 s = (Raise (KeyError "file"), snd (get_breakpoints s)).
Proof.
  cbv zeta.
  apply (clear_breakpoint_entry_without_file "/tmp/a.go" 12 _
           [fixture_breakpoint 1 "/tmp/a.go" 10]
           [("id", PyInt 2); ("line", PyInt 12)]
           [fixture_breakpoint 3 "/tmp/a.go" 12]).
  - vm_compute. reflexivity.
  - reflexivity.
  - reflexivity.
  - reflexivity.
Defined.
